(** * Portfolio advisor chatbot: the backend of [src/backend/main.py]

    A shallow embedding of the chat pipeline (entity extraction, intent
    classification, dispatch), of the analytics engine, of the SQLite
    portfolio store and of the market-data gateway, followed by the
    properties of the specification that were settled against it.

    Conventions of the embedding:
    - text is a [string] of 8-bit characters; [lower], [upper], word
      characters and digits are the ASCII ones, so the embedding follows
      Python on ASCII text;
    - in the chat pipeline a Python float is an exact rational [Q] and
      [round(x, 2)] is rounding of [100 * x] to the nearest integer, ties
      to even, over [100]; the valuation is given a second time over an
      arithmetic of which nothing is known ([Arith], [Analytics]), and
      what is stated of its figures is stated there, for doubles as for
      rationals;
    - everything outside the program (yfinance, sqlite3 faults, the clock,
      the formatting of a float inside an f-string) is a field of [world];
    - a method that can raise returns a [result]; methods that touch the
      database run in the monad [M], which threads the [store] through
      results and faults alike. *)

From Stdlib Require Import List String Ascii ZArith QArith Qround Bool Arith Lia.
From Stdlib Require Import DecimalString Permutation.
Import ListNotations.
Close Scope Q_scope.
Local Open Scope string_scope.

(* ================================================================== *)
(** ** Text: the [str] methods the program uses *)
(* ================================================================== *)

Module Text.

Definition in_range (lo hi : nat) (c : ascii) : bool :=
  let n := nat_of_ascii c in (lo <=? n)%nat && (n <=? hi)%nat.

Definition is_upper (c : ascii) : bool := in_range 65 90 c.
Definition is_lower (c : ascii) : bool := in_range 97 122 c.
Definition is_digit (c : ascii) : bool := in_range 48 57 c.

(** [\w] on ASCII text: letters, digits and the underscore. *)
Definition is_word (c : ascii) : bool :=
  is_upper c || is_lower c || is_digit c || Ascii.eqb c "_"%char.

Definition is_newline (c : ascii) : bool := Ascii.eqb c "010"%char.

Definition lower_char (c : ascii) : ascii :=
  if is_upper c then ascii_of_nat (nat_of_ascii c + 32) else c.

Definition upper_char (c : ascii) : ascii :=
  if is_lower c then ascii_of_nat (nat_of_ascii c - 32) else c.

Fixpoint map_string (f : ascii -> ascii) (s : string) : string :=
  match s with
  | EmptyString => EmptyString
  | String c s' => String (f c) (map_string f s')
  end.

(** [s.lower()] and [s.upper()]. *)
Definition lower : string -> string := map_string lower_char.
Definition upper : string -> string := map_string upper_char.

(** [s.startswith(p)]. *)
Fixpoint starts_with (p s : string) : bool :=
  match p, s with
  | EmptyString, _ => true
  | String a p', String b s' => Ascii.eqb a b && starts_with p' s'
  | String _ _, EmptyString => false
  end.

(** [sub in s]. *)
Fixpoint contains (sub s : string) : bool :=
  starts_with sub s ||
  match s with
  | EmptyString => false
  | String _ s' => contains sub s'
  end.

(** [any(word in s for word in words)]. *)
Definition any_in (words : list string) (s : string) : bool :=
  existsb (fun w => contains w s) words.

(** [s[:n]]. *)
Fixpoint take (n : nat) (s : string) : string :=
  match n, s with
  | S n', String c s' => String c (take n' s')
  | _, _ => EmptyString
  end.

End Text.

(* ================================================================== *)
(** ** Regex: the fragment of Python's [re] the program uses

    The patterns of the program are sequences of single characters,
    character classes, [\b], and a class or character under a greedy
    quantifier ([*], [+], [?], [{m,n}]).  The matcher is the backtracking
    one of [re]: a quantifier first takes as many characters as it can and
    gives them back one at a time. *)
(* ================================================================== *)

Module Regex.
Import Text.

Inductive atom : Type :=
| AChr (c : ascii)     (* an ordinary character *)
| AAny                 (* [.]: any character but a newline *)
| AUpper               (* [[A-Z]] *)
| ADigit.              (* [\d] *)

Inductive item : Type :=
| One (a : atom)
| Rep (a : atom) (lo : nat) (hi : option nat)   (* greedy [a{lo,hi}] *)
| WordB.                                        (* [\b] *)

Definition regex : Type := list item.

Definition atom_ok (a : atom) (c : ascii) : bool :=
  match a with
  | AChr x => Ascii.eqb x c
  | AAny => negb (is_newline c)
  | AUpper => is_upper c
  | ADigit => is_digit c
  end.

Definition word_opt (o : option ascii) : bool :=
  match o with Some c => is_word c | None => false end.

Definition head (s : string) : option ascii :=
  match s with String c _ => Some c | EmptyString => None end.

(** [\b] holds between [prev] and the rest [s] when exactly one side is
    a word character; the ends of the text count as non-word. *)
Definition boundary (prev : option ascii) (s : string) : bool :=
  xorb (word_opt prev) (word_opt (head s)).

Definition may_take (n : nat) (hi : option nat) : bool :=
  match hi with Some h => (n <? h)%nat | None => true end.

Definition or_else {A} (x y : option A) : option A :=
  match x with Some _ => x | None => y end.

(** [match_here r prev s]: the length of the match of [r] that [re]
    finds at the start of [s], [prev] being the character before it. *)
Fixpoint match_here (r : regex) : option ascii -> string -> option nat :=
  match r with
  | [] => fun _ _ => Some O
  | One a :: r' => fun _ s =>
      match s with
      | String c s' =>
          if atom_ok a c then option_map S (match_here r' (Some c) s')
          else None
      | EmptyString => None
      end
  | WordB :: r' => fun prev s =>
      if boundary prev s then match_here r' prev s else None
  | Rep a lo hi :: r' =>
      (fix rep (n : nat) (prev : option ascii) (s : string) {struct s}
         : option nat :=
         let stop :=
           if (lo <=? n)%nat then match_here r' prev s else None in
         match s with
         | String c s' =>
             if atom_ok a c && may_take n hi
             then or_else (option_map S (rep (S n) (Some c) s')) stop
             else stop
         | EmptyString => stop
         end) O
  end.

(** [re.search(r, s)] as a truth value: some start position matches. *)
Fixpoint search_from (r : regex) (prev : option ascii) (s : string) : bool :=
  match match_here r prev s with
  | Some _ => true
  | None =>
      match s with
      | String c s' => search_from r (Some c) s'
      | EmptyString => false
      end
  end.

Definition search (r : regex) (s : string) : bool := search_from r None s.

(** [re.findall(r, s)] for a pattern without groups: the matches from
    left to right, the scan resuming where a match ended.  [skip] counts
    the characters of the last match still to be stepped over.  (The two
    patterns it is called with match no empty string.) *)
Fixpoint findall_from (r : regex) (prev : option ascii) (skip : nat)
         (s : string) : list string :=
  let step (k : nat) : list string :=
    match s with
    | String c s' => findall_from r (Some c) k s'
    | EmptyString => []
    end in
  match skip with
  | S k => step k
  | O =>
      match match_here r prev s with
      | Some n => take n s :: step (Nat.pred n)
      | None => step O
      end
  end.

Definition findall (r : regex) (s : string) : list string :=
  findall_from r None O s.

(** Reading a pattern written with ordinary characters, [.] and a
    postfix [*]: the syntax of the intent table. *)
Fixpoint parse (p : string) : regex :=
  match p with
  | EmptyString => []
  | String c p' =>
      let a := if Ascii.eqb c "."%char then AAny else AChr c in
      match p' with
      | String x p'' =>
          if Ascii.eqb x "*"%char then Rep a 0 None :: parse p''
          else One a :: parse p'
      | EmptyString => [One a]
      end
  end.

End Regex.

(* ================================================================== *)
(** ** Numbers: Python floats as exact rationals

    An idealisation: a double rounds after each operation, a rational
    does not.  The valuation, whose figures depend on it, is given again
    over any arithmetic in [Arith] and [Analytics]. *)
(* ================================================================== *)

Module Num.

(** [a < b] on floats. *)
Definition ltb (a b : Q) : bool := negb (Qle_bool b a).

Definition add (a b : Q) : Q := Qred (a + b).
Definition sub (a b : Q) : Q := Qred (a - b).
Definition mul (a b : Q) : Q := Qred (a * b).
Definition div (a b : Q) : Q := Qred (a / b).

(** The integer nearest to [x], a tie going to the even one. *)
Definition round_half_even (x : Q) : Z :=
  let n := Qnum x in
  let d := Zpos (Qden x) in
  let f := (n / d)%Z in
  let r := (2 * (n mod d))%Z in
  if (r <? d)%Z then f
  else if (d <? r)%Z then (f + 1)%Z
  else if Z.even f then f else (f + 1)%Z.

(** [round(x, 2)]. *)
Definition round2 (x : Q) : Q :=
  Qred (Qmake (round_half_even (x * 100)) 100).

Definition digit_val (c : ascii) : Z := Z.of_nat (nat_of_ascii c - 48).

(** The integer written by a run of decimal digits, after [acc]. *)
Fixpoint digits_val (acc : Z) (s : string) : Z :=
  match s with
  | EmptyString => acc
  | String c s' => digits_val (10 * acc + digit_val c)%Z s'
  end.

(** [s.split('.', 1)] of a numeral: the part before the first point and
    the part after it. *)
Fixpoint split_point (s : string) : string * string :=
  match s with
  | EmptyString => (EmptyString, EmptyString)
  | String c s' =>
      if Ascii.eqb c "."%char then (EmptyString, s')
      else let '(a, b) := split_point s' in (String c a, b)
  end.

Fixpoint pow10 (k : nat) : positive :=
  match k with
  | O => 1%positive
  | S k' => (10 * pow10 k')%positive
  end.

(** [float(n)] for a numeral [n] of the shape [\d+\.?\d*]. *)
Definition float_of_string (n : string) : Q :=
  let '(ip, fp) := split_point n in
  Qred (Qmake (digits_val 0 (ip ++ fp)) (pow10 (String.length fp))).

End Num.

(* ================================================================== *)
(** ** Exceptions, results and the outside world *)
(* ================================================================== *)

(** The exceptions the chat handler can meet ([except Exception]). *)
Inductive exn : Type :=
| KeyError (key : string)         (* [d[key]] on a dict without [key] *)
| IndexError                      (* [l[i]] out of range *)
| DatabaseError (msg : string).   (* raised by [sqlite3] *)

(** [str(e)]. *)
Definition str_exn (e : exn) : string :=
  match e with
  | KeyError k => "'" ++ k ++ "'"
  | IndexError => "list index out of range"
  | DatabaseError m => m
  end.

Inductive result (A : Type) : Type :=
| Ok (a : A)
| Raise (e : exn).
Arguments Ok {A} a.
Arguments Raise {A} e.

(** [d[key]] and [l[i]]. *)
Definition getitem {A} (key : string) (field : option A) : result A :=
  match field with Some v => Ok v | None => Raise (KeyError key) end.

Definition index {A} (l : list A) (i : nat) : result A :=
  match nth_error l i with Some v => Ok v | None => Raise IndexError end.

Definition is_some {A} (o : option A) : bool :=
  match o with Some _ => true | None => false end.

(** An optional list that, when present, has a first element. *)
Definition has_first {A} (o : option (list A)) : Prop :=
  match o with
  | Some l => exists x, nth_error l 0 = Some x
  | None => True
  end.

(** A value found in a dict of yfinance. *)
Inductive pyval : Type :=
| PNum (q : Q)
| PStr (s : string)
| PNone.

(** [d.get(key, default)]. *)
Fixpoint dict_get {V} (d : list (string * V)) (key : string) (default : V) : V :=
  match d with
  | [] => default
  | (k, v) :: d' => if String.eqb k key then v else dict_get d' key default
  end.

(** [d[key] = v] on an insertion-ordered dict. *)
Fixpoint dict_set {V} (d : list (string * V)) (key : string) (v : V)
  : list (string * V) :=
  match d with
  | [] => [(key, v)]
  | (k, x) :: d' =>
      if String.eqb k key then (k, v) :: d' else (k, x) :: dict_set d' key v
  end.

(** One row of the frame [stock.history(period="1d")]. *)
Record bar : Type := { Open : Q; Close : Q }.

(** What yfinance does for a symbol: a call raises, or [stock.info] and
    [stock.history(period="1d")] are obtained. *)
Inductive yf_outcome : Type :=
| YfRaise (e : string)
| YfData (info : list (string * pyval)) (hist : list bar).

(** The four methods of the store that open a connection. *)
Inductive db_method : Type :=
| MAddHolding | MGetPortfolio | MAddAlert | MGetAlerts.

Record world : Type := {
  (** [yf.Ticker(symbol)] with its [info] and [history] *)
  ticker : string -> yf_outcome;
  (** the message of the [sqlite3] error a method meets, if it meets one *)
  sqlite_fault : db_method -> option string;
  (** [datetime.now().isoformat()], by rank of the call inside a method *)
  now : nat -> string;
  (** a float as an f-string writes it *)
  str_float : Q -> string
}.

(* ================================================================== *)
(** ** 1. Data models *)
(* ================================================================== *)

Module UserInput.
Record t : Type := { message : string; user_id : string }.
End UserInput.

Module Entities.
(** The dict of [extract_entities]: each of its three keys is present
    ([Some]) or absent ([None]). *)
Record t : Type := {
  symbols : option (list string);
  numbers : option (list Q);
  condition : option string
}.
Definition empty : t :=
  {| symbols := None; numbers := None; condition := None |}.
End Entities.

Module Intent.
Record t : Type := {
  action : string;
  entities : Entities.t;
  confidence : Q
}.
End Intent.

(* ================================================================== *)
(** ** 2. Database layer: [PortfolioDatabase] *)
(* ================================================================== *)

Module HoldingRow.
Record t : Type := {
  id : Z; user_id : string; symbol : string;
  quantity : Q; buy_price : Q; buy_date : string
}.
End HoldingRow.

Module AlertRow.
Record t : Type := {
  id : Z; user_id : string; symbol : string; condition : string;
  price : Q; active : bool; created_date : string
}.
End AlertRow.

Module TransactionRow.
Record t : Type := {
  id : Z; user_id : string; symbol : string; action : string;
  quantity : Q; price : Q; date : string
}.
End TransactionRow.

(** The three tables of [portfolio.db], each in rowid order. *)
Record store : Type := {
  holdings : list HoldingRow.t;
  alerts : list AlertRow.t;
  transactions : list TransactionRow.t
}.

(** Computations over the store that may raise; the store survives a
    fault. *)
Definition M (A : Type) : Type := store -> result A * store.

Definition ret {A} (a : A) : M A := fun st => (Ok a, st).

Definition raise {A} (e : exn) : M A := fun st => (Raise e, st).

Definition bind {A B} (m : M A) (k : A -> M B) : M B :=
  fun st =>
    match m st with
    | (Ok a, st') => k a st'
    | (Raise e, st') => (Raise e, st')
    end.

Definition lift {A} (r : result A) : M A := fun st => (r, st).

Notation "x <- m ;; k" := (bind m (fun x => k))
  (at level 61, m at next level, right associativity).

(** The dicts that [get_portfolio] and [get_alerts] build from rows. *)
Module Holding.
Record t : Type := {
  symbol : string; quantity : Q; buy_price : Q; buy_date : string
}.
End Holding.

Module Alert.
Record t : Type := {
  symbol : string; condition : string; price : Q; active : bool
}.
End Alert.

Module PortfolioDatabase.

(** [init_database] on a new file: the three tables, empty. *)
Definition init_database : store :=
  {| holdings := []; alerts := []; transactions := [] |}.

(** The rowid SQLite gives a row inserted without one. *)
Definition next_id (ids : list Z) : Z := (1 + fold_right Z.max 0 ids)%Z.

(** A method opens its connection; a fault of [sqlite3] ends it before
    the commit, so the tables are as they were. *)
Definition connect (w : world) (m : db_method) : M unit :=
  match sqlite_fault w m with
  | Some e => raise (DatabaseError e)
  | None => ret tt
  end.

Definition same_key (user_id symbol : string) (r : HoldingRow.t) : bool :=
  String.eqb (HoldingRow.user_id r) user_id
  && String.eqb (HoldingRow.symbol r) symbol.

(** [INSERT OR REPLACE INTO holdings] under [UNIQUE(user_id, symbol)]:
    the row in conflict is deleted and the new row is inserted with a
    new rowid. *)
Definition insert_or_replace (r : HoldingRow.t) (rows : list HoldingRow.t)
  : list HoldingRow.t :=
  filter (fun x =>
            negb (same_key (HoldingRow.user_id r) (HoldingRow.symbol r) x))
         rows
  ++ [r].

Definition add_holding (w : world) (user_id symbol : string)
           (quantity buy_price : Q) : M unit :=
  _ <- connect w MAddHolding ;;
  fun st =>
    let h := {| HoldingRow.id := next_id (map HoldingRow.id (holdings st));
                HoldingRow.user_id := user_id;
                HoldingRow.symbol := symbol;
                HoldingRow.quantity := quantity;
                HoldingRow.buy_price := buy_price;
                HoldingRow.buy_date := now w 0 |} in
    let t := {| TransactionRow.id :=
                  next_id (map TransactionRow.id (transactions st));
                TransactionRow.user_id := user_id;
                TransactionRow.symbol := symbol;
                TransactionRow.action := "BUY";
                TransactionRow.quantity := quantity;
                TransactionRow.price := buy_price;
                TransactionRow.date := now w 1 |} in
    (Ok tt, {| holdings := insert_or_replace h (holdings st);
               alerts := alerts st;
               transactions := transactions st ++ [t] |}).

(** Rows come out of [SELECT ... FROM holdings WHERE user_id = ?] in the
    order of the index of [UNIQUE(user_id, symbol)], which SQLite uses
    for it: for one user, by symbol. *)
Fixpoint insert_by_symbol (r : HoldingRow.t) (rows : list HoldingRow.t)
  : list HoldingRow.t :=
  match rows with
  | [] => [r]
  | x :: rows' =>
      if String.ltb (HoldingRow.symbol r) (HoldingRow.symbol x)
      then r :: x :: rows'
      else x :: insert_by_symbol r rows'
  end.

Definition index_order (rows : list HoldingRow.t) : list HoldingRow.t :=
  fold_left (fun acc r => insert_by_symbol r acc) rows [].

Definition select_holdings (user_id : string) (st : store)
  : list HoldingRow.t :=
  index_order
    (filter (fun r => String.eqb (HoldingRow.user_id r) user_id)
            (holdings st)).

Definition get_portfolio (w : world) (user_id : string)
  : M (list Holding.t) :=
  _ <- connect w MGetPortfolio ;;
  fun st =>
    (Ok (map (fun row =>
                {| Holding.symbol := HoldingRow.symbol row;
                   Holding.quantity := HoldingRow.quantity row;
                   Holding.buy_price := HoldingRow.buy_price row;
                   Holding.buy_date := HoldingRow.buy_date row |})
             (select_holdings user_id st)),
     st).

Definition add_alert (w : world) (user_id symbol condition : string)
           (price : Q) : M unit :=
  _ <- connect w MAddAlert ;;
  fun st =>
    let a := {| AlertRow.id := next_id (map AlertRow.id (alerts st));
                AlertRow.user_id := user_id;
                AlertRow.symbol := symbol;
                AlertRow.condition := condition;
                AlertRow.price := price;
                AlertRow.active := true;
                AlertRow.created_date := now w 0 |} in
    (Ok tt, {| holdings := holdings st;
               alerts := alerts st ++ [a];
               transactions := transactions st |}).

Definition get_alerts (w : world) (user_id : string) : M (list Alert.t) :=
  _ <- connect w MGetAlerts ;;
  fun st =>
    (Ok (map (fun row =>
                {| Alert.symbol := AlertRow.symbol row;
                   Alert.condition := AlertRow.condition row;
                   Alert.price := AlertRow.price row;
                   Alert.active := AlertRow.active row |})
             (filter (fun r => String.eqb (AlertRow.user_id r) user_id
                               && AlertRow.active r)
                     (alerts st))),
     st).

End PortfolioDatabase.

(* ================================================================== *)
(** ** 3. NLP and command processor: [NLPProcessor] *)
(* ================================================================== *)

Module NLPProcessor.
Import Text Regex.

(** The table of [__init__], in the order the dict is written. *)
Definition intent_patterns : list (string * list string) :=
  [ ("show_portfolio",
     ["show.*portfolio"; "my.*holdings"; "portfolio.*summary";
      "what.*do.*i.*own"; "current.*portfolio"]);
    ("add_alert",
     ["alert.*me.*if"; "notify.*when"; "tell.*me.*if";
      "set.*alert"; "watch.*for"]);
    ("compare_stocks",
     ["compare.*vs"; "compare.*and"; ".*vs.*";
      "difference.*between"; "which.*better"]);
    ("simulate",
     ["what.*if.*buy"; "simulate.*buying"; "if.*i.*bought";
      "scenario.*where"; "what.*would.*happen"]);
    ("add_holding",
     ["i.*bought"; "add.*to.*portfolio"; "i.*own";
      "purchased.*shares"; "bought.*shares"]);
    ("stock_price",
     ["price.*of"; "current.*price"; "how.*much.*is";
      "what.*is.*trading"; ".*price.*now"]) ].

(** [\b[A-Z]{2,4}\b] *)
Definition symbol_pattern : regex := [WordB; Rep AUpper 2 (Some 4); WordB].

(** [\d+\.?\d*] *)
Definition number_pattern : regex :=
  [Rep ADigit 1 None; Rep (AChr "."%char) 0 (Some 1); Rep ADigit 0 None].

(** A key is set only under its [if]: an empty list is falsy. *)
Definition if_nonempty {A} (l : list A) : option (list A) :=
  match l with [] => None | _ :: _ => Some l end.

Definition extract_entities (text : string) : Entities.t :=
  let symbols := findall symbol_pattern (upper text) in
  let numbers := findall number_pattern text in
  {| Entities.symbols := if_nonempty symbols;
     Entities.numbers := if_nonempty (map Num.float_of_string numbers);
     Entities.condition :=
       if any_in ["above"; "over"; "higher"] (lower text) then Some "above"
       else if any_in ["below"; "under"; "lower"] (lower text)
            then Some "below"
            else None |}.

(** The two nested loops of [classify_intent]: the first intent of the
    table one of whose patterns is found in the text. *)
Fixpoint first_match (table : list (string * list string))
         (text_lower : string) : option string :=
  match table with
  | [] => None
  | (intent, patterns) :: table' =>
      if existsb (fun pattern => search (parse pattern) text_lower) patterns
      then Some intent
      else first_match table' text_lower
  end.

Definition classify_intent (text : string) : Intent.t :=
  let text_lower := lower text in
  match first_match intent_patterns text_lower with
  | Some intent =>
      {| Intent.action := intent;
         Intent.entities := extract_entities text;
         Intent.confidence := (8 # 10)%Q |}
  | None =>
      {| Intent.action := "stock_price";
         Intent.entities := extract_entities text;
         Intent.confidence := (5 # 10)%Q |}
  end.

End NLPProcessor.

(* ================================================================== *)
(** ** 4. Market data: [MarketDataAPI] *)
(* ================================================================== *)

Module Quote.
(** The dict [get_stock_info] returns when it has data. *)
Record t : Type := {
  symbol : string;
  name : pyval;
  current_price : Q;
  currency : pyval;
  sector : pyval;
  market_cap : pyval;
  pe_ratio : pyval;
  day_change : Q
}.
End Quote.

(** What [get_stock_info] returns: the dict [{"error": ...}] or a quote;
    ['error' in stock_info] tells them apart. *)
Inductive stock_info : Type :=
| StockError (error : string)
| StockQuote (q : Quote.t).

Definition has_error (i : stock_info) : bool :=
  match i with StockError _ => true | StockQuote _ => false end.

Module MarketDataAPI.

(** [hist[col].iloc[-1]]: the entry of the last row. *)
Definition iloc_last (col : bar -> Q) (hist : list bar) : Q :=
  col (List.last hist {| Open := 0; Close := 0 |}).

Definition get_stock_info (w : world) (symbol : string) : stock_info :=
  match ticker w symbol with
  | YfRaise e =>
      StockError ("Error fetching data for " ++ symbol ++ ": " ++ e)
  | YfData info hist =>
      match hist with
      | [] => StockError ("No data found for " ++ symbol)
      | _ :: _ =>
          let current_price := iloc_last Close hist in
          StockQuote
            {| Quote.symbol := symbol;
               Quote.name := dict_get info "shortName" (PStr "N/A");
               Quote.current_price := Num.round2 current_price;
               Quote.currency := dict_get info "currency" (PStr "USD");
               Quote.sector := dict_get info "sector" (PStr "N/A");
               Quote.market_cap := dict_get info "marketCap" (PNum 0);
               Quote.pe_ratio := dict_get info "trailingPE" (PStr "N/A");
               Quote.day_change :=
                 if (0 <? List.length hist)%nat
                 then Num.round2 (Num.sub (iloc_last Close hist)
                                          (iloc_last Open hist))
                 else 0%Q |}
      end
  end.

End MarketDataAPI.

(* ================================================================== *)
(** ** 5. Analytics engine: [AnalyticsEngine] *)
(* ================================================================== *)

Module Detail.
(** One entry of [portfolio_details]. *)
Record t : Type := {
  symbol : string;
  name : pyval;
  quantity : Q;
  buy_price : Q;
  current_price : Q;
  current_value : Q;
  cost_basis : Q;
  profit_loss : Q;
  profit_loss_pct : Q
}.
End Detail.

Module Report.
(** The dict [calculate_portfolio_value] returns for a user who has
    holdings: these five keys and no other. *)
Record t : Type := {
  total_value : Q;
  total_cost : Q;
  total_profit_loss : Q;
  total_profit_loss_pct : Q;
  holdings : list Detail.t
}.
End Report.

Inductive portfolio_value : Type :=
| NoHoldings (message : string)
| Valuation (r : Report.t).

Module Simulation.
Record t : Type := {
  symbol : string;
  quantity : Q;
  price_per_share : Q;
  total_cost : Q;
  current_portfolio_value : Q;
  new_portfolio_value : Q
}.
End Simulation.

(** What [simulate_purchase] returns: the dict of the gateway as it is, or
    [{"simulation": ...}]. *)
Inductive simulate_result : Type :=
| SimStockInfo (i : stock_info)
| SimSimulation (s : Simulation.t).

Module AnalyticsEngine.
Import Num.

(** [round((profit_loss / cost_basis) * 100, 2) if cost_basis > 0
    else 0]. *)
Definition pct (profit_loss cost_basis : Q) : Q :=
  if ltb 0 cost_basis then round2 (mul (div profit_loss cost_basis) 100)
  else 0%Q.

(** The variables the loop of [calculate_portfolio_value] updates. *)
Record acc : Type := {
  total_value : Q;
  total_cost : Q;
  portfolio_details : list Detail.t
}.

(** One turn of the loop. *)
Definition loop_body (w : world) (a : acc) (holding : Holding.t) : acc :=
  match MarketDataAPI.get_stock_info w (Holding.symbol holding) with
  | StockError _ => a
  | StockQuote stock_info =>
      let current_value :=
        mul (Holding.quantity holding) (Quote.current_price stock_info) in
      let cost_basis :=
        mul (Holding.quantity holding) (Holding.buy_price holding) in
      let profit_loss := sub current_value cost_basis in
      {| portfolio_details :=
           portfolio_details a ++
           [ {| Detail.symbol := Holding.symbol holding;
                Detail.name := Quote.name stock_info;
                Detail.quantity := Holding.quantity holding;
                Detail.buy_price := Holding.buy_price holding;
                Detail.current_price := Quote.current_price stock_info;
                Detail.current_value := round2 current_value;
                Detail.cost_basis := round2 cost_basis;
                Detail.profit_loss := round2 profit_loss;
                Detail.profit_loss_pct := pct profit_loss cost_basis |} ];
         total_value := add (total_value a) current_value;
         total_cost := add (total_cost a) cost_basis |}
  end.

(** The report built after the loop. *)
Definition report_of (a : acc) : Report.t :=
  let total_profit_loss := sub (total_value a) (total_cost a) in
  {| Report.total_value := round2 (total_value a);
     Report.total_cost := round2 (total_cost a);
     Report.total_profit_loss := round2 total_profit_loss;
     Report.total_profit_loss_pct := pct total_profit_loss (total_cost a);
     Report.holdings := portfolio_details a |}.

Definition calculate_portfolio_value (w : world) (user_id : string)
  : M portfolio_value :=
  holdings <- PortfolioDatabase.get_portfolio w user_id ;;
  match holdings with
  | [] => ret (NoHoldings "No holdings found in portfolio")
  | _ :: _ =>
      ret (Valuation
             (report_of
                (fold_left (loop_body w) holdings
                           {| total_value := 0; total_cost := 0;
                              portfolio_details := [] |})))
  end.

Definition compare_stocks (w : world) (symbols : list string)
  : list (string * stock_info) :=
  fold_left
    (fun comparison symbol =>
       let stock_info := MarketDataAPI.get_stock_info w symbol in
       if has_error stock_info then comparison
       else dict_set comparison symbol stock_info)
    symbols [].

(** [current_portfolio.get('total_value', 0)]. *)
Definition get_total_value (p : portfolio_value) : Q :=
  match p with
  | NoHoldings _ => 0%Q
  | Valuation r => Report.total_value r
  end.

Definition simulate_purchase (w : world) (user_id symbol : string)
           (quantity : Q) : M simulate_result :=
  let stock_info := MarketDataAPI.get_stock_info w symbol in
  match stock_info with
  | StockError _ => ret (SimStockInfo stock_info)
  | StockQuote stock_info =>
      current_portfolio <- calculate_portfolio_value w user_id ;;
      let purchase_cost := mul quantity (Quote.current_price stock_info) in
      ret (SimSimulation
             {| Simulation.symbol := symbol;
                Simulation.quantity := quantity;
                Simulation.price_per_share :=
                  Quote.current_price stock_info;
                Simulation.total_cost := round2 purchase_cost;
                Simulation.current_portfolio_value :=
                  get_total_value current_portfolio;
                Simulation.new_portfolio_value :=
                  round2 (add (get_total_value current_portfolio)
                              purchase_cost) |})
  end.

End AnalyticsEngine.

(* ================================================================== *)
(** ** 5a. The valuation over any arithmetic

    [calculate_portfolio_value] once more, written over a type [F] of
    numbers of which nothing is known.  Every operation the method
    applies to a number is a field of [Arith.t]: the ints [0] and [100],
    [+], [-], [*], [/] (which may raise [ZeroDivisionError]), [> 0] and
    [round(x, 2)]; [== 0] is there for the specification, which speaks
    of a cost that is 0.  The doubles of Python and numpy with their own
    rounding are one such arithmetic, the rationals of [Num] another; a
    statement proved for every arithmetic uses no law of either.  The
    store and the gateway are the two objects the engine is built with
    ([AnalyticsEngine(db, market_api)]), here two functions. *)
(* ================================================================== *)

Module Arith.

Record t (F : Type) : Type := {
  zero : F;                           (* the int [0] *)
  hundred : F;                        (* the int [100] *)
  add : F -> F -> F;
  sub : F -> F -> F;
  mul : F -> F -> F;
  div : F -> F -> option F;           (* [None]: [ZeroDivisionError] *)
  gt_zero : F -> bool;                (* [x > 0] *)
  round2 : F -> F;                    (* [round(x, 2)] *)
  eq_zero : F -> bool                 (* [x == 0] *)
}.
Arguments zero {F} _.
Arguments hundred {F} _.
Arguments add {F} _ _ _.
Arguments sub {F} _ _ _.
Arguments mul {F} _ _ _.
Arguments div {F} _ _ _.
Arguments gt_zero {F} _ _.
Arguments round2 {F} _ _.
Arguments eq_zero {F} _ _.

(** A division by a number that is [> 0] does not raise. *)
Definition divides_by_positive {F} (A : t F) : Prop :=
  forall x y : F, gt_zero A y = true -> exists z, div A x y = Some z.

(** A number that is [== 0] is not [> 0]. *)
Definition zero_not_positive {F} (A : t F) : Prop :=
  forall x : F, eq_zero A x = true -> gt_zero A x = false.

(** The rationals of [Num]; a division by zero raises. *)
Definition exact : t Q :=
  {| zero := 0%Q;
     hundred := 100%Q;
     add := Num.add;
     sub := Num.sub;
     mul := Num.mul;
     div := fun x y => if Qeq_bool y 0 then None else Some (Num.div x y);
     gt_zero := Num.ltb 0;
     round2 := Num.round2;
     eq_zero := fun x => Qeq_bool x 0 |}.

End Arith.

Module Analytics.

Module Holding.
Record t (F : Type) : Type := {
  symbol : string; quantity : F; buy_price : F; buy_date : string
}.
Arguments symbol {F} _.
Arguments quantity {F} _.
Arguments buy_price {F} _.
Arguments buy_date {F} _.
End Holding.

Module Quote.
Record t (F : Type) : Type := {
  symbol : string;
  name : pyval;
  current_price : F;
  currency : pyval;
  sector : pyval;
  market_cap : pyval;
  pe_ratio : pyval;
  day_change : F
}.
Arguments symbol {F} _.
Arguments name {F} _.
Arguments current_price {F} _.
Arguments currency {F} _.
Arguments sector {F} _.
Arguments market_cap {F} _.
Arguments pe_ratio {F} _.
Arguments day_change {F} _.
End Quote.

(** The dict of the gateway: [{"error": ...}] or a quote. *)
Inductive stock_info (F : Type) : Type :=
| Failed (error : string)
| Quoted (q : Quote.t F).
Arguments Failed {F} error.
Arguments Quoted {F} q.

Module Detail.
Record t (F : Type) : Type := {
  symbol : string;
  name : pyval;
  quantity : F;
  buy_price : F;
  current_price : F;
  current_value : F;
  cost_basis : F;
  profit_loss : F;
  profit_loss_pct : F
}.
Arguments symbol {F} _.
Arguments name {F} _.
Arguments quantity {F} _.
Arguments buy_price {F} _.
Arguments current_price {F} _.
Arguments current_value {F} _.
Arguments cost_basis {F} _.
Arguments profit_loss {F} _.
Arguments profit_loss_pct {F} _.
End Detail.

Module Report.
Record t (F : Type) : Type := {
  total_value : F;
  total_cost : F;
  total_profit_loss : F;
  total_profit_loss_pct : F;
  holdings : list (Detail.t F)
}.
Arguments total_value {F} _.
Arguments total_cost {F} _.
Arguments total_profit_loss {F} _.
Arguments total_profit_loss_pct {F} _.
Arguments holdings {F} _.
End Report.

Inductive portfolio_value (F : Type) : Type :=
| Message (message : string)
| Valued (r : Report.t F).
Arguments Message {F} message.
Arguments Valued {F} r.

(** The variables the loop updates. *)
Record acc (F : Type) : Type := {
  total_value : F;
  total_cost : F;
  portfolio_details : list (Detail.t F)
}.
Arguments total_value {F} _.
Arguments total_cost {F} _.
Arguments portfolio_details {F} _.

Section Engine.
Context {F : Type} (A : Arith.t F).
Variable get_portfolio : string -> list (Holding.t F).
Variable get_stock_info : string -> stock_info F.

(** [round((profit_loss / cost_basis) * 100, 2) if cost_basis > 0
    else 0]; [None] when the division raises. *)
Definition pct (profit_loss cost_basis : F) : option F :=
  if Arith.gt_zero A cost_basis then
    match Arith.div A profit_loss cost_basis with
    | Some ratio => Some (Arith.round2 A (Arith.mul A ratio (Arith.hundred A)))
    | None => None
    end
  else Some (Arith.zero A).

(** One turn of the loop; [None] when it raises. *)
Definition loop_body (a : acc F) (holding : Holding.t F) : option (acc F) :=
  match get_stock_info (Holding.symbol holding) with
  | Failed _ => Some a
  | Quoted stock_info =>
      let current_value :=
        Arith.mul A (Holding.quantity holding)
                  (Quote.current_price stock_info) in
      let cost_basis :=
        Arith.mul A (Holding.quantity holding)
                  (Holding.buy_price holding) in
      let profit_loss := Arith.sub A current_value cost_basis in
      match pct profit_loss cost_basis with
      | None => None
      | Some profit_loss_pct =>
          Some
            {| portfolio_details :=
                 portfolio_details a ++
                 [ {| Detail.symbol := Holding.symbol holding;
                      Detail.name := Quote.name stock_info;
                      Detail.quantity := Holding.quantity holding;
                      Detail.buy_price := Holding.buy_price holding;
                      Detail.current_price :=
                        Quote.current_price stock_info;
                      Detail.current_value := Arith.round2 A current_value;
                      Detail.cost_basis := Arith.round2 A cost_basis;
                      Detail.profit_loss := Arith.round2 A profit_loss;
                      Detail.profit_loss_pct := profit_loss_pct |} ];
               total_value := Arith.add A (total_value a) current_value;
               total_cost := Arith.add A (total_cost a) cost_basis |}
      end
  end.

(** [for holding in holdings], left to right, until a turn raises. *)
Fixpoint loop (holdings : list (Holding.t F)) (a : acc F)
  : option (acc F) :=
  match holdings with
  | [] => Some a
  | holding :: holdings' =>
      match loop_body a holding with
      | Some a' => loop holdings' a'
      | None => None
      end
  end.

(** The dict built after the loop. *)
Definition report_of (a : acc F) : option (Report.t F) :=
  let total_profit_loss := Arith.sub A (total_value a) (total_cost a) in
  match pct total_profit_loss (total_cost a) with
  | None => None
  | Some total_profit_loss_pct =>
      Some {| Report.total_value := Arith.round2 A (total_value a);
              Report.total_cost := Arith.round2 A (total_cost a);
              Report.total_profit_loss := Arith.round2 A total_profit_loss;
              Report.total_profit_loss_pct := total_profit_loss_pct;
              Report.holdings := portfolio_details a |}
  end.

Definition calculate_portfolio_value (user_id : string)
  : option (portfolio_value F) :=
  let holdings := get_portfolio user_id in
  match holdings with
  | [] => Some (Message "No holdings found in portfolio")
  | _ :: _ =>
      match loop holdings {| total_value := Arith.zero A;
                             total_cost := Arith.zero A;
                             portfolio_details := [] |} with
      | None => None
      | Some a =>
          match report_of a with
          | None => None
          | Some r => Some (Valued r)
          end
      end
  end.

(** The specification's side (section 4.4): the holdings whose lookup
    succeeds, each with its quote, in the order of the portfolio. *)
Fixpoint priced (holdings : list (Holding.t F))
  : list (Holding.t F * Quote.t F) :=
  match holdings with
  | [] => []
  | h :: holdings' =>
      match get_stock_info (Holding.symbol h) with
      | Quoted q => (h, q) :: priced holdings'
      | Failed _ => priced holdings'
      end
  end.

(** What a priced holding is worth now, and what it cost. *)
Definition worth (p : Holding.t F * Quote.t F) : F :=
  Arith.mul A (Holding.quantity (fst p)) (Quote.current_price (snd p)).

Definition cost (p : Holding.t F * Quote.t F) : F :=
  Arith.mul A (Holding.quantity (fst p)) (Holding.buy_price (fst p)).

(** A sum of amounts, added to [0] one after the other. *)
Definition total (amounts : list F) : F :=
  fold_left (Arith.add A) amounts (Arith.zero A).

(** The percentage of a profit on a cost as section 4.4 words it:
    100 * profit / cost, the quotient taken first as the code takes it,
    rounded at output; 0 when the cost is 0. *)
Definition is_pct (profit_loss cost_basis x : F) : Prop :=
  (Arith.gt_zero A cost_basis = true ->
   exists ratio,
     Arith.div A profit_loss cost_basis = Some ratio
     /\ x = Arith.round2 A (Arith.mul A ratio (Arith.hundred A)))
  /\ (Arith.eq_zero A cost_basis = true -> x = Arith.zero A).

(** The entry of a priced holding as section 4.4 words it: the fields of
    the holding and of its quote as they are, the three amounts rounded
    at output, and the percentage. *)
Definition is_entry (p : Holding.t F * Quote.t F) (d : Detail.t F) : Prop :=
  let current_value := worth p in
  let cost_basis := cost p in
  let profit_loss := Arith.sub A current_value cost_basis in
  Detail.symbol d = Holding.symbol (fst p)
  /\ Detail.name d = Quote.name (snd p)
  /\ Detail.quantity d = Holding.quantity (fst p)
  /\ Detail.buy_price d = Holding.buy_price (fst p)
  /\ Detail.current_price d = Quote.current_price (snd p)
  /\ Detail.current_value d = Arith.round2 A current_value
  /\ Detail.cost_basis d = Arith.round2 A cost_basis
  /\ Detail.profit_loss d = Arith.round2 A profit_loss
  /\ is_pct profit_loss cost_basis (Detail.profit_loss_pct d).

End Engine.

End Analytics.

(** The dicts of the engine over the rationals read as dicts of the
    engine over an arithmetic, field by field. *)
Module Exact.

Definition holding (h : Holding.t) : Analytics.Holding.t Q :=
  {| Analytics.Holding.symbol := Holding.symbol h;
     Analytics.Holding.quantity := Holding.quantity h;
     Analytics.Holding.buy_price := Holding.buy_price h;
     Analytics.Holding.buy_date := Holding.buy_date h |}.

Definition info (i : stock_info) : Analytics.stock_info Q :=
  match i with
  | StockError e => Analytics.Failed e
  | StockQuote q =>
      Analytics.Quoted
        {| Analytics.Quote.symbol := Quote.symbol q;
           Analytics.Quote.name := Quote.name q;
           Analytics.Quote.current_price := Quote.current_price q;
           Analytics.Quote.currency := Quote.currency q;
           Analytics.Quote.sector := Quote.sector q;
           Analytics.Quote.market_cap := Quote.market_cap q;
           Analytics.Quote.pe_ratio := Quote.pe_ratio q;
           Analytics.Quote.day_change := Quote.day_change q |}
  end.

Definition detail (d : Detail.t) : Analytics.Detail.t Q :=
  {| Analytics.Detail.symbol := Detail.symbol d;
     Analytics.Detail.name := Detail.name d;
     Analytics.Detail.quantity := Detail.quantity d;
     Analytics.Detail.buy_price := Detail.buy_price d;
     Analytics.Detail.current_price := Detail.current_price d;
     Analytics.Detail.current_value := Detail.current_value d;
     Analytics.Detail.cost_basis := Detail.cost_basis d;
     Analytics.Detail.profit_loss := Detail.profit_loss d;
     Analytics.Detail.profit_loss_pct := Detail.profit_loss_pct d |}.

Definition report (r : Report.t) : Analytics.Report.t Q :=
  {| Analytics.Report.total_value := Report.total_value r;
     Analytics.Report.total_cost := Report.total_cost r;
     Analytics.Report.total_profit_loss := Report.total_profit_loss r;
     Analytics.Report.total_profit_loss_pct :=
       Report.total_profit_loss_pct r;
     Analytics.Report.holdings := map detail (Report.holdings r) |}.

Definition value (p : portfolio_value) : Analytics.portfolio_value Q :=
  match p with
  | NoHoldings m => Analytics.Message m
  | Valuation r => Analytics.Valued (report r)
  end.

Definition acc (a : AnalyticsEngine.acc) : Analytics.acc Q :=
  {| Analytics.total_value := AnalyticsEngine.total_value a;
     Analytics.total_cost := AnalyticsEngine.total_cost a;
     Analytics.portfolio_details :=
       map detail (AnalyticsEngine.portfolio_details a) |}.

End Exact.

(* ================================================================== *)
(** ** 6. Main application: the [/chat] endpoint *)
(* ================================================================== *)

(** The value bound to [response] by a branch of the endpoint. *)
Inductive response : Type :=
| RPortfolio (p : portfolio_value)
| RMessage (message : string)                       (* [{"message": ...}] *)
| RComparison (comparison : list (string * stock_info))
| RSimulate (r : simulate_result)
| RStockInfo (i : stock_info)                    (* [{"stock_info": ...}] *)
| RError (error : string).                            (* [{"error": ...}] *)

Module Envelope.
Record t : Type := { intent : Intent.t; response : response }.
End Envelope.

(** The six actions the dispatcher has a branch for. *)
Definition known_actions : list string :=
  ["show_portfolio"; "add_alert"; "compare_stocks"; "simulate";
   "add_holding"; "stock_price"].

Module Chat.
Import Entities.

Definition not_understood : string :=
  "I didn't understand that command. Try asking about your portfolio, setting alerts, or comparing stocks.".

(** The body of the [try] of [chat_endpoint]. *)
Definition dispatch (w : world) (user_input : UserInput.t)
           (intent : Intent.t) : M response :=
  let user_id := UserInput.user_id user_input in
  let entities := Intent.entities intent in
  let action := Intent.action intent in
  if String.eqb action "show_portfolio" then
    p <- AnalyticsEngine.calculate_portfolio_value w user_id ;;
    ret (RPortfolio p)
  else if String.eqb action "add_alert" then
    if is_some (symbols entities) && is_some (numbers entities)
       && is_some (condition entities)
    then
      syms <- lift (getitem "symbols" (symbols entities)) ;;
      symbol <- lift (index syms 0) ;;
      nums <- lift (getitem "numbers" (numbers entities)) ;;
      price <- lift (index nums 0) ;;
      cond <- lift (getitem "condition" (condition entities)) ;;
      _ <- PortfolioDatabase.add_alert w user_id symbol cond price ;;
      ret (RMessage ("Alert set for " ++ symbol ++ " when price goes "
                     ++ cond ++ " $" ++ str_float w price))
    else
      ret (RMessage
             "Please specify symbol, price, and condition (above/below)")
  else if String.eqb action "compare_stocks" then
    if is_some (symbols entities) then
      syms <- lift (getitem "symbols" (symbols entities)) ;;
      if (2 <=? List.length syms)%nat then
        ret (RComparison
               (AnalyticsEngine.compare_stocks w (firstn 2 syms)))
      else
        ret (RMessage "Please specify at least 2 stock symbols to compare")
    else
      ret (RMessage "Please specify at least 2 stock symbols to compare")
  else if String.eqb action "simulate" then
    if is_some (symbols entities) && is_some (numbers entities) then
      syms <- lift (getitem "symbols" (symbols entities)) ;;
      symbol <- lift (index syms 0) ;;
      nums <- lift (getitem "numbers" (numbers entities)) ;;
      quantity <- lift (index nums 0) ;;
      r <- AnalyticsEngine.simulate_purchase w user_id symbol quantity ;;
      ret (RSimulate r)
    else
      ret (RMessage "Please specify symbol and quantity for simulation")
  else if String.eqb action "add_holding" then
    if is_some (symbols entities) then
      nums <- lift (getitem "numbers" (numbers entities)) ;;
      if (2 <=? List.length nums)%nat then
        syms <- lift (getitem "symbols" (symbols entities)) ;;
        symbol <- lift (index syms 0) ;;
        nums0 <- lift (getitem "numbers" (numbers entities)) ;;
        quantity <- lift (index nums0 0) ;;
        nums1 <- lift (getitem "numbers" (numbers entities)) ;;
        price <- lift (index nums1 1) ;;
        _ <- PortfolioDatabase.add_holding w user_id symbol quantity price ;;
        ret (RMessage ("Added " ++ str_float w quantity ++ " shares of "
                       ++ symbol ++ " at $" ++ str_float w price
                       ++ " to portfolio"))
      else
        ret (RMessage "Please specify symbol, quantity, and purchase price")
    else
      ret (RMessage "Please specify symbol, quantity, and purchase price")
  else if String.eqb action "stock_price" then
    if is_some (symbols entities) then
      syms <- lift (getitem "symbols" (symbols entities)) ;;
      symbol <- lift (index syms 0) ;;
      ret (RStockInfo (MarketDataAPI.get_stock_info w symbol))
    else
      ret (RMessage "Please specify a stock symbol")
  else
    ret (RMessage not_understood).

(** [chat_endpoint]: classify, run the branch under [try], turn an
    exception into [{"error": ...}], wrap. *)
Definition chat_endpoint (w : world) (user_input : UserInput.t)
           (st : store) : Envelope.t * store :=
  let intent := NLPProcessor.classify_intent (UserInput.message user_input) in
  let '(outcome, st') := dispatch w user_input intent st in
  let response :=
    match outcome with
    | Ok response => response
    | Raise e => RError ("An error occurred: " ++ str_exn e)
    end in
  ({| Envelope.intent := intent; Envelope.response := response |}, st').


End Chat.

(* ================================================================== *)
(** ** Sums as the specification words them *)
(* ================================================================== *)

Module ValuationSpec.
Local Open Scope Q_scope.

Definition sum (l : list Q) : Q := fold_right Qplus 0 l.

End ValuationSpec.

(* ================================================================== *)
(** ** Sequences of purchases, and the worlds of the examples *)
(* ================================================================== *)

Module Purchase.
(** The arguments of one call of [add_holding]. *)
Record t : Type := {
  user_id : string; symbol : string; quantity : Q; price : Q
}.
End Purchase.

Definition record_purchase (w : world) (st : store) (p : Purchase.t) : store :=
  snd (PortfolioDatabase.add_holding
         w (Purchase.user_id p) (Purchase.symbol p)
         (Purchase.quantity p) (Purchase.price p) st).

Definition record_purchases (w : world) (ps : list Purchase.t) (st : store)
  : store :=
  fold_left (record_purchase w) ps st.

(** The last purchase of [symbol] by [user_id] in a sequence. *)
Fixpoint last_purchase (user_id symbol : string) (ps : list Purchase.t)
  : option Purchase.t :=
  match ps with
  | [] => None
  | p :: ps' =>
      match last_purchase user_id symbol ps' with
      | Some p' => Some p'
      | None =>
          if String.eqb (Purchase.user_id p) user_id
             && String.eqb (Purchase.symbol p) symbol
          then Some p else None
      end
  end.

(** A row of [holdings] without its rowid, and a row of [transactions]
    without its rowid. *)
Definition holding_data (r : HoldingRow.t)
  : string * string * Q * Q * string :=
  (HoldingRow.user_id r, HoldingRow.symbol r, HoldingRow.quantity r,
   HoldingRow.buy_price r, HoldingRow.buy_date r).

Definition transaction_data (r : TransactionRow.t)
  : string * string * string * Q * Q * string :=
  (TransactionRow.user_id r, TransactionRow.symbol r,
   TransactionRow.action r, TransactionRow.quantity r,
   TransactionRow.price r, TransactionRow.date r).

Definition holding_key (r : HoldingRow.t) : string * string :=
  (HoldingRow.user_id r, HoldingRow.symbol r).

(** The row of data a purchase leaves in [holdings], and the one it
    appends to [transactions]. *)
Definition purchase_holding (w : world) (p : Purchase.t)
  : string * string * Q * Q * string :=
  (Purchase.user_id p, Purchase.symbol p, Purchase.quantity p,
   Purchase.price p, now w 0).

Definition purchase_transaction (w : world) (p : Purchase.t)
  : string * string * string * Q * Q * string :=
  (Purchase.user_id p, Purchase.symbol p, "BUY", Purchase.quantity p,
   Purchase.price p, now w 1).

Module Examples.

(** A float with a whole value as Python writes it ("10.0"); any other
    value as its reduced fraction. *)
Definition show_float (q : Q) : string :=
  let r := Qred q in
  NilZero.string_of_int (Z.to_int (Qnum r))
  ++ (if Pos.eqb (Qden r) 1 then ".0"
      else "/" ++ NilZero.string_of_uint (Pos.to_uint (Qden r))).

(** A market that knows AAPL (last bar 118 -> 120), fails on TSLA and
    has no bar for any other symbol; a database without faults. *)
Definition market : world :=
  {| ticker := fun symbol =>
       if String.eqb symbol "AAPL"
       then YfData [("shortName", PStr "Apple Inc."); ("currency", PStr "USD")]
                   [ {| Open := 118; Close := 120 |} ]
       else if String.eqb symbol "TSLA"
            then YfRaise "connection reset"
            else YfData [] [];
     sqlite_fault := fun _ => None;
     now := fun n => if Nat.eqb n 0 then "2024-01-01T10:00:00.000001"
                     else "2024-01-01T10:00:00.000002";
     str_float := show_float |}.

(** The same market over a database that is locked. *)
Definition locked : world :=
  {| ticker := ticker market;
     sqlite_fault := fun _ => Some "database is locked";
     now := now market;
     str_float := str_float market |}.

Definition buy (user_id symbol : string) (quantity price : Q) : Purchase.t :=
  {| Purchase.user_id := user_id; Purchase.symbol := symbol;
     Purchase.quantity := quantity; Purchase.price := price |}.

(** One holding: 10 AAPL bought at 100. *)
Definition one_holding : store :=
  record_purchases market [buy "u" "AAPL" 10 100]
                   PortfolioDatabase.init_database.


Definition says (message : string) : UserInput.t :=
  {| UserInput.message := message; UserInput.user_id := "u" |}.

(** The same market and the two holdings, for the valuation over the
    rationals: AAPL quoted 120, no other symbol quoted. *)
Definition quotes (symbol : string) : Analytics.stock_info Q :=
  if String.eqb symbol "AAPL" then
    Analytics.Quoted
      {| Analytics.Quote.symbol := "AAPL";
         Analytics.Quote.name := PStr "N/A";
         Analytics.Quote.current_price := 120%Q;
         Analytics.Quote.currency := PStr "USD";
         Analytics.Quote.sector := PStr "N/A";
         Analytics.Quote.market_cap := PNum 0;
         Analytics.Quote.pe_ratio := PStr "N/A";
         Analytics.Quote.day_change := 2%Q |}
  else Analytics.Failed ("No data found for " ++ symbol).

Definition held (symbol : string) (quantity buy_price : Q)
  : Analytics.Holding.t Q :=
  {| Analytics.Holding.symbol := symbol;
     Analytics.Holding.quantity := quantity;
     Analytics.Holding.buy_price := buy_price;
     Analytics.Holding.buy_date := "2024-01-02T10:00:00" |}.

(** User "u" holds 10 AAPL bought at 100; user "v" holds them and
    3 TSLA bought at 200. *)
Definition portfolios (user_id : string) : list (Analytics.Holding.t Q) :=
  if String.eqb user_id "u" then [held "AAPL" 10%Q 100%Q]
  else if String.eqb user_id "v" then [held "AAPL" 10%Q 100%Q; held "TSLA" 3%Q 200%Q]
  else [].

End Examples.

(* ================================================================== *)
(** ** The rest of the program: history, the GET endpoints, [/recommend] *)
(* ================================================================== *)

Module HistoricalData.

(** What [stock.history(period=period)] does for a symbol and a period: it
    raises, or gives a frame, of which [to_dict('records')] lists the rows
    ([R] is the dict of one row). *)
Inductive history_outcome (R : Type) : Type :=
| HistoryRaise (e : string)
| HistoryFrame (records : list R).
Arguments HistoryRaise {R} e.
Arguments HistoryFrame {R} records.

(** What [get_historical_data] returns: [{"error": ...}] or the dict with
    the keys [symbol], [period] and [data]. *)
Inductive t (R : Type) : Type :=
| HistoricalError (error : string)
| Historical (symbol period : string) (data : list R).
Arguments HistoricalError {R} error.
Arguments Historical {R} symbol period data.

(** [l[-n:]] for [n > 0]. *)
Definition last_records {R} (n : nat) (l : list R) : list R :=
  skipn (List.length l - n) l.

Definition get_historical_data {R}
           (history : string -> string -> history_outcome R)
           (symbol period : string) : t R :=
  match history symbol period with
  | HistoryRaise e =>
      HistoricalError ("Error fetching historical data: " ++ e)
  | HistoryFrame records => Historical symbol period (last_records 10 records)
  end.

End HistoricalData.

Module Endpoints.

(** [GET /portfolio/{user_id}]. *)
Definition get_portfolio (w : world) (user_id : string) : M portfolio_value :=
  AnalyticsEngine.calculate_portfolio_value w user_id.

(** [GET /alerts/{user_id}]: the dict [{"alerts": ...}], here its one
    value. *)
Definition get_alerts (w : world) (user_id : string) : M (list Alert.t) :=
  alerts <- PortfolioDatabase.get_alerts w user_id ;;
  ret alerts.

(** [GET /stock/{symbol}]. *)
Definition get_stock_info (w : world) (symbol : string) : stock_info :=
  MarketDataAPI.get_stock_info w symbol.

(** The tickers and the weights [recommend_portfolio] chooses. *)
Definition allocation_of (message : string) : list string * list Q :=
  if Text.contains "low" (Text.lower message)
  then (["AAPL"; "JNJ"], [(4 # 10)%Q; (6 # 10)%Q])
  else if Text.contains "high" (Text.lower message)
       then (["TSLA"; "NVDA"], [(5 # 10)%Q; (5 # 10)%Q])
       else (["AAPL"; "TSLA"; "JNJ"], [(3 # 10)%Q; (4 # 10)%Q; (3 # 10)%Q]).

(** [POST /recommend]: each entry is the dict of the gateway with the key
    [allocation] added to it, here the pair of the two. *)
Definition recommend_portfolio (w : world) (input : UserInput.t)
  : list (stock_info * Q) :=
  let '(tickers, weights) := allocation_of (UserInput.message input) in
  map (fun '(ticker, weight) =>
         (MarketDataAPI.get_stock_info w ticker, weight))
      (combine tickers weights).

End Endpoints.

(* ================================================================== *)
(** ** Auxiliary definitions of the proofs *)
(* ================================================================== *)

(** The loop of a greedy quantifier, as a function of its own: [a{lo,hi}]
    after [n] characters were taken, followed by [rest]. *)
Fixpoint rep_from (a : Regex.atom) (lo : nat) (hi : option nat)
         (rest : option ascii -> string -> option nat)
         (n : nat) (prev : option ascii) (s : string) {struct s}
  : option nat :=
  let stop := if (lo <=? n)%nat then rest prev s else None in
  match s with
  | String c s' =>
      if Regex.atom_ok a c && Regex.may_take n hi
      then Regex.or_else
             (option_map S (rep_from a lo hi rest (S n) (Some c) s')) stop
      else stop
  | EmptyString => stop
  end.

(** Every character of a string passes a test. *)
Fixpoint all_chars (p : ascii -> bool) (s : string) : bool :=
  match s with
  | EmptyString => true
  | String c s' => p c && all_chars p s'
  end.

(** [s.isascii()]: every character is below U+0080. *)
Definition isascii (s : string) : bool :=
  all_chars (fun c => (nat_of_ascii c <? 128)%nat) s.

(** The dict a row of [holdings] becomes in [get_portfolio], and the one a
    row of [alerts] becomes in [get_alerts]. *)
Definition holding_of_row (row : HoldingRow.t) : Holding.t :=
  {| Holding.symbol := HoldingRow.symbol row;
     Holding.quantity := HoldingRow.quantity row;
     Holding.buy_price := HoldingRow.buy_price row;
     Holding.buy_date := HoldingRow.buy_date row |}.

Definition alert_of_row (row : AlertRow.t) : Alert.t :=
  {| Alert.symbol := AlertRow.symbol row;
     Alert.condition := AlertRow.condition row;
     Alert.price := AlertRow.price row;
     Alert.active := AlertRow.active row |}.

(** A market whose every lookup fails. *)
Definition closed_market : world :=
  {| ticker := fun _ => YfData [] [];
     sqlite_fault := fun _ => None;
     now := now Examples.market;
     str_float := Examples.show_float |}.

(* ================================================================== *)
(** * Properties *)
(* ================================================================== *)

(** ** Numbers: the normalised operations are the rational ones *)

Section NumFacts.
Import Num.
Local Open Scope Q_scope.

Lemma sub_correct (a b : Q) : sub a b == a - b.
Proof. apply Qred_correct. Qed.

(** Rounding sees the rational, not the fraction that writes it. *)
Lemma round_half_even_comp (x y : Q) :
  x == y -> round_half_even x = round_half_even y.
Proof.
  intro H.
  assert (Hf : (Qnum x / Zpos (Qden x) = Qnum y / Zpos (Qden y))%Z).
  { pose proof (Qfloor_comp x y H) as F.
    destruct x, y. exact F. }
  unfold round_half_even.
  destruct x as [n d], y as [m e].
  unfold Qeq in H. cbn [Qnum Qden] in *. cbv zeta.
  rewrite <- Hf.
  set (f := (n / Zpos d)%Z) in *.
  assert (Hn : (n mod Zpos d = n - Zpos d * f)%Z).
  { unfold f. rewrite Z.mod_eq by lia. reflexivity. }
  assert (Hm : (m mod Zpos e = m - Zpos e * f)%Z).
  { rewrite Hf. rewrite Z.mod_eq by lia. reflexivity. }
  rewrite Hn, Hm.
  assert (Hlt : ((2 * (n - Zpos d * f) <? Zpos d)
                 = (2 * (m - Zpos e * f) <? Zpos e))%Z).
  { apply eq_true_iff_eq. rewrite !Z.ltb_lt. split; intro; nia. }
  assert (Hgt : ((Zpos d <? 2 * (n - Zpos d * f))
                 = (Zpos e <? 2 * (m - Zpos e * f)))%Z).
  { apply eq_true_iff_eq. rewrite !Z.ltb_lt. split; intro; nia. }
  now rewrite Hlt, Hgt.
Qed.

Lemma round2_comp (x y : Q) : x == y -> round2 x = round2 y.
Proof.
  intro H. unfold round2.
  rewrite (round_half_even_comp (x * 100) (y * 100)); [reflexivity|].
  now rewrite H.
Qed.

End NumFacts.

(** ** Entity extraction and classification *)

Section Classification.
Import NLPProcessor.

Lemma if_nonempty_some {A} (l l' : list A) :
  if_nonempty l = Some l' -> l' = l /\ exists x, nth_error l' 0 = Some x.
Proof.
  destruct l as [|x l]; simpl; intro H; [discriminate|].
  injection H as <-. split; [reflexivity|]. now exists x.
Qed.

Lemma if_nonempty_has_first {A} (l : list A) : has_first (if_nonempty l).
Proof. destruct l as [|x l]; simpl; [exact I|]. now exists x. Qed.

Lemma extract_entities_has_first (text : string) :
  has_first (Entities.symbols (extract_entities text))
  /\ has_first (Entities.numbers (extract_entities text)).
Proof. split; apply if_nonempty_has_first. Qed.

Lemma first_match_in (table : list (string * list string))
      (text_lower intent : string) :
  first_match table text_lower = Some intent -> In intent (map fst table).
Proof.
  induction table as [|[name patterns] table IH]; simpl; [discriminate|].
  destruct (existsb _ patterns).
  - intro H. injection H as <-. now left.
  - intro H. right. now apply IH.
Qed.

Lemma classify_intent_known (text : string) :
  In (Intent.action (classify_intent text)) known_actions.
Proof.
  unfold classify_intent.
  destruct (first_match intent_patterns (Text.lower text)) as [a|] eqn:E.
  - apply first_match_in in E. exact E.
  - simpl. tauto.
Qed.

Lemma classify_intent_entities (text : string) :
  Intent.entities (classify_intent text) = extract_entities text.
Proof.
  unfold classify_intent.
  now destruct (first_match intent_patterns (Text.lower text)).
Qed.

End Classification.

(** C2, as the code has it.  A text in which no pattern of the table is
    found is classified [stock_price] with confidence 0.5, its entities
    being those of [extract_entities] on the text as given; for the text
    "xyz" these are the one symbol "XYZ", since symbols are looked for in
    the upper-cased text.  Every text is classified: the action is one of
    the six and the confidence lies between 0 and 1. *)
Theorem classify_intent_fallback (text : string) :
  NLPProcessor.first_match NLPProcessor.intent_patterns (Text.lower text)
  = None ->
  NLPProcessor.classify_intent text
  = {| Intent.action := "stock_price";
       Intent.entities := NLPProcessor.extract_entities text;
       Intent.confidence := (5 # 10)%Q |}
  /\ NLPProcessor.extract_entities "xyz"
     = {| Entities.symbols := Some ["XYZ"];
          Entities.numbers := None;
          Entities.condition := None |}
  /\ (forall t : string,
        In (Intent.action (NLPProcessor.classify_intent t)) known_actions
        /\ (0 <= Intent.confidence (NLPProcessor.classify_intent t) <= 1)%Q).
Proof.
  intro H. unfold NLPProcessor.classify_intent at 1. rewrite H.
  split; [reflexivity|]. split; [reflexivity|].
  intro t. split; [apply classify_intent_known|].
  unfold NLPProcessor.classify_intent.
  destruct (NLPProcessor.first_match NLPProcessor.intent_patterns
                                     (Text.lower t));
    simpl; split; apply Qle_bool_iff; reflexivity.
Qed.

Lemma classify_intent_fallback_xyz :
  NLPProcessor.first_match NLPProcessor.intent_patterns (Text.lower "xyz")
  = None
  /\ Intent.action (NLPProcessor.classify_intent "xyz") = "stock_price"
  /\ Intent.confidence (NLPProcessor.classify_intent "xyz") = (5 # 10)%Q
  /\ Intent.entities (NLPProcessor.classify_intent "xyz")
     = NLPProcessor.extract_entities "xyz".
Proof.
  assert (H : NLPProcessor.first_match NLPProcessor.intent_patterns
                                       (Text.lower "xyz") = None)
    by (vm_compute; reflexivity).
  split; [exact H|].
  destruct (classify_intent_fallback "xyz" H) as [E _].
  rewrite E. repeat split.
Defined.

(** C2, as the specification states it, fails: "xyz" matches no pattern
    and its entity map is not empty. *)
Lemma classify_intent_xyz_entities_not_empty :
  NLPProcessor.first_match NLPProcessor.intent_patterns (Text.lower "xyz")
  = None
  /\ Intent.entities (NLPProcessor.classify_intent "xyz") <> Entities.empty.
Proof.
  split; [vm_compute; reflexivity|].
  vm_compute. discriminate.
Qed.

(** ** The dispatcher *)

Section Dispatch.
Import Chat.

(** Reading off the store: the methods that only select leave it as it
    was, with or without a fault. *)
Lemma get_portfolio_store (w : world) (user_id : string) (st : store) :
  snd (PortfolioDatabase.get_portfolio w user_id st) = st.
Proof.
  unfold PortfolioDatabase.get_portfolio, PortfolioDatabase.connect, bind.
  now destruct (sqlite_fault w MGetPortfolio).
Qed.

Lemma calculate_portfolio_value_store (w : world) (user_id : string)
      (st : store) :
  snd (AnalyticsEngine.calculate_portfolio_value w user_id st) = st.
Proof.
  unfold AnalyticsEngine.calculate_portfolio_value, bind.
  pose proof (get_portfolio_store w user_id st) as H.
  destruct (PortfolioDatabase.get_portfolio w user_id st) as [[hs|e] st'];
    simpl in H; subst st'; [|reflexivity].
  now destruct hs.
Qed.

Lemma simulate_purchase_store (w : world) (user_id symbol : string)
      (quantity : Q) (st : store) :
  snd (AnalyticsEngine.simulate_purchase w user_id symbol quantity st) = st.
Proof.
  unfold AnalyticsEngine.simulate_purchase.
  destruct (MarketDataAPI.get_stock_info w symbol); [reflexivity|].
  unfold bind.
  pose proof (calculate_portfolio_value_store w user_id st) as H.
  destruct (AnalyticsEngine.calculate_portfolio_value w user_id st)
    as [[p|e] st']; simpl in H; subst st'; reflexivity.
Qed.

(** [get_portfolio] raises nothing but a database error. *)
Lemma get_portfolio_raises (w : world) (user_id : string) (st : store)
      (e : exn) :
  fst (PortfolioDatabase.get_portfolio w user_id st) = Raise e ->
  exists m, e = DatabaseError m.
Proof.
  unfold PortfolioDatabase.get_portfolio, PortfolioDatabase.connect, bind.
  destruct (sqlite_fault w MGetPortfolio) as [m|]; simpl; intro H;
    [|discriminate].
  injection H as <-. now exists m.
Qed.

Lemma calculate_portfolio_value_raises (w : world) (user_id : string)
      (st : store) (e : exn) :
  fst (AnalyticsEngine.calculate_portfolio_value w user_id st) = Raise e ->
  exists m, e = DatabaseError m.
Proof.
  unfold AnalyticsEngine.calculate_portfolio_value, bind.
  pose proof (get_portfolio_raises w user_id st) as H.
  destruct (PortfolioDatabase.get_portfolio w user_id st) as [[hs|e'] st'];
    simpl in *.
  - destruct hs; discriminate.
  - intro E. injection E as <-. now apply H.
Qed.

Lemma simulate_purchase_raises (w : world) (user_id symbol : string)
      (quantity : Q) (st : store) (e : exn) :
  fst (AnalyticsEngine.simulate_purchase w user_id symbol quantity st)
  = Raise e ->
  exists m, e = DatabaseError m.
Proof.
  unfold AnalyticsEngine.simulate_purchase.
  destruct (MarketDataAPI.get_stock_info w symbol); [discriminate|].
  unfold bind.
  pose proof (calculate_portfolio_value_raises w user_id st) as H.
  destruct (AnalyticsEngine.calculate_portfolio_value w user_id st)
    as [[p|e'] st']; simpl in *; [discriminate|].
  intro E. injection E as <-. now apply H.
Qed.

End Dispatch.

Section DispatchCases.
Import Chat.

Lemma add_alert_outcome (w : world) (user_id symbol cond : string)
      (price : Q) (st : store) :
  (exists st', PortfolioDatabase.add_alert w user_id symbol cond price st
               = (Ok tt, st'))
  \/ (exists m, PortfolioDatabase.add_alert w user_id symbol cond price st
                = (Raise (DatabaseError m), st)).
Proof.
  unfold PortfolioDatabase.add_alert, PortfolioDatabase.connect, bind,
    raise, ret.
  destruct (sqlite_fault w MAddAlert) as [m|]; [right|left]; eauto.
Qed.

Lemma add_holding_outcome (w : world) (user_id symbol : string)
      (quantity price : Q) (st : store) :
  (exists st', PortfolioDatabase.add_holding w user_id symbol quantity
                                             price st = (Ok tt, st'))
  \/ (exists m, PortfolioDatabase.add_holding w user_id symbol quantity
                                              price st
                = (Raise (DatabaseError m), st)).
Proof.
  unfold PortfolioDatabase.add_holding, PortfolioDatabase.connect, bind,
    raise, ret.
  destruct (sqlite_fault w MAddHolding) as [m|]; [right|left]; eauto.
Qed.

(** With an action of the table, no branch answers with the message of
    the last [else]. *)
Lemma dispatch_not_fallback (w : world) (user_input : UserInput.t)
      (intent : Intent.t) (st : store) :
  In (Intent.action intent) known_actions ->
  fst (dispatch w user_input intent st) <> Ok (RMessage not_understood).
Proof.
  destruct intent as [action [syms nums cond] conf].
  unfold known_actions. cbn [Intent.action In].
  intros [<-|[<-|[<-|[<-|[<-|[<-|[]]]]]]];
    unfold dispatch;
    cbn [Intent.action Intent.entities Entities.symbols Entities.numbers
         Entities.condition String.eqb Ascii.eqb Bool.eqb].
  - unfold bind.
    destruct (AnalyticsEngine.calculate_portfolio_value _ _ _) as [[p|e] st'];
      cbn; discriminate.
  - destruct syms as [[|s syms]|], nums as [[|n nums]|], cond as [c|];
      cbn; try discriminate.
    unfold bind.
    destruct (add_alert_outcome w (UserInput.user_id user_input) s c n st)
      as [[st' E]|[m E]]; rewrite E; cbn; discriminate.
  - destruct syms as [[|s [|s' syms]]|]; cbn; discriminate.
  - destruct syms as [[|s syms]|], nums as [[|n nums]|];
      cbn; try discriminate.
    unfold bind.  cbn.
    destruct (AnalyticsEngine.simulate_purchase _ _ _ _ _) as [[p|e] st'];
      cbn; discriminate.
  - destruct syms as [[|s syms]|], nums as [[|n [|n' nums]]|];
      cbn; try discriminate.
    unfold bind. cbn.
    destruct (add_holding_outcome w (UserInput.user_id user_input) s n n' st)
      as [[st' E]|[m E]]; rewrite E; cbn; discriminate.
  - destruct syms as [[|s syms]|]; cbn; discriminate.
Qed.

Lemma no_first_of_nil {A} : ~ has_first (Some (@nil A)).
Proof. intros [x H]. discriminate. Qed.

(** With entity lists that have a first element, no subscript of the
    dispatcher is out of range. *)
Lemma dispatch_no_index_error (w : world) (user_input : UserInput.t)
      (intent : Intent.t) (st : store) :
  has_first (Entities.symbols (Intent.entities intent)) ->
  has_first (Entities.numbers (Intent.entities intent)) ->
  fst (dispatch w user_input intent st) <> Raise IndexError.
Proof.
  destruct intent as [action [syms nums cond] conf].
  cbn [Intent.entities Entities.symbols Entities.numbers].
  intros Hs Hn. unfold dispatch.
  cbn [Intent.action Intent.entities Entities.symbols Entities.numbers
       Entities.condition].
  destruct (String.eqb action "show_portfolio").
  { unfold bind.
    pose proof (calculate_portfolio_value_raises
                  w (UserInput.user_id user_input) st) as H.
    destruct (AnalyticsEngine.calculate_portfolio_value _ _ _)
      as [[p|e] st']; cbn in *; [discriminate|].
    intro E. injection E as ->.
    destruct (H _ eq_refl) as [m Hm]. discriminate. }
  destruct (String.eqb action "add_alert").
  { destruct syms as [[|s syms]|]; [now apply no_first_of_nil in Hs| |];
      destruct nums as [[|n nums]|];
      try (now apply no_first_of_nil in Hn);
      destruct cond as [c|]; cbn; try discriminate.
    unfold bind.
    destruct (add_alert_outcome w (UserInput.user_id user_input) s c n st)
      as [[st' E]|[m E]]; rewrite E; cbn; discriminate. }
  destruct (String.eqb action "compare_stocks").
  { destruct syms as [[|s [|s' syms]]|]; cbn; discriminate. }
  destruct (String.eqb action "simulate").
  { destruct syms as [[|s syms]|]; [now apply no_first_of_nil in Hs| |];
      destruct nums as [[|n nums]|];
      try (now apply no_first_of_nil in Hn);
      cbn; try discriminate.
    unfold bind.
    pose proof (simulate_purchase_raises
                  w (UserInput.user_id user_input) s n st) as H.
    destruct (AnalyticsEngine.simulate_purchase _ _ _ _ _)
      as [[p|e] st']; cbn in *; [discriminate|].
    intro E. injection E as ->.
    destruct (H _ eq_refl) as [m Hm]. discriminate. }
  destruct (String.eqb action "add_holding").
  { destruct syms as [[|s syms]|]; [now apply no_first_of_nil in Hs| |];
      destruct nums as [[|n [|n' nums]]|]; cbn; try discriminate.
    unfold bind.
    destruct (add_holding_outcome w (UserInput.user_id user_input) s n n' st)
      as [[st' E]|[m E]]; rewrite E; cbn; discriminate. }
  destruct (String.eqb action "stock_price").
  { destruct syms as [[|s syms]|]; [now apply no_first_of_nil in Hs| |];
      cbn; discriminate. }
  cbn. discriminate.
Qed.

(** The [add_holding] branch, by what the entities hold. *)
Lemma dispatch_add_holding (w : world) (user_input : UserInput.t)
      (entities : Entities.t) (confidence : Q) (st : store) :
  let intent := {| Intent.action := "add_holding";
                   Intent.entities := entities;
                   Intent.confidence := confidence |} in
  match Entities.symbols entities, Entities.numbers entities with
  | None, _ =>
      dispatch w user_input intent st
      = (Ok (RMessage "Please specify symbol, quantity, and purchase price"),
         st)
  | Some _, None =>
      dispatch w user_input intent st = (Raise (KeyError "numbers"), st)
  | Some _, Some ([] | [_]) =>
      dispatch w user_input intent st
      = (Ok (RMessage "Please specify symbol, quantity, and purchase price"),
         st)
  | Some _, Some (_ :: _ :: _) => True
  end.
Proof.
  destruct entities as [syms nums cond]. cbn.
  destruct syms as [syms|], nums as [[|n [|n' nums]]|]; cbn; reflexivity.
Qed.

End DispatchCases.

(** ** The chat endpoint *)

Lemma chat_endpoint_unfold (w : world) (user_input : UserInput.t)
      (st : store) :
  Chat.chat_endpoint w user_input st
  = let intent :=
      NLPProcessor.classify_intent (UserInput.message user_input) in
    ({| Envelope.intent := intent;
        Envelope.response :=
          match fst (Chat.dispatch w user_input intent st) with
          | Ok response => response
          | Raise e => RError ("An error occurred: " ++ str_exn e)
          end |},
     snd (Chat.dispatch w user_input intent st)).
Proof.
  unfold Chat.chat_endpoint. cbv zeta.
  now destruct (Chat.dispatch w user_input _ st).
Qed.

(** C1, at the input where the code departs from it.  The message
    "I bought AAPL" is classified [add_holding] with the symbol AAPL and no
    number; the test [len(intent.entities['numbers']) >= 2] then raises
    [KeyError], and the answer is the error object, not the guidance
    message.  Nothing is written to the store. *)
Theorem add_holding_without_numbers_faults (w : world) (user_id : string)
        (st : store) :
  let user_input :=
    {| UserInput.message := "I bought AAPL"; UserInput.user_id := user_id |} in
  let intent := Envelope.intent (fst (Chat.chat_endpoint w user_input st)) in
  Intent.action intent = "add_holding"
  /\ Entities.symbols (Intent.entities intent) = Some ["AAPL"]
  /\ Entities.numbers (Intent.entities intent) = None
  /\ Envelope.response (fst (Chat.chat_endpoint w user_input st))
     = RError "An error occurred: 'numbers'"
  /\ Envelope.response (fst (Chat.chat_endpoint w user_input st))
     <> RMessage "Please specify symbol, quantity, and purchase price"
  /\ snd (Chat.chat_endpoint w user_input st) = st.
Proof.
  cbv zeta. rewrite chat_endpoint_unfold. cbv zeta.
  cbn [UserInput.message fst snd Envelope.intent Envelope.response].
  assert (E : NLPProcessor.classify_intent "I bought AAPL"
              = {| Intent.action := "add_holding";
                   Intent.entities :=
                     {| Entities.symbols := Some ["AAPL"];
                        Entities.numbers := None;
                        Entities.condition := None |};
                   Intent.confidence := (8 # 10)%Q |})
    by (vm_compute; reflexivity).
  rewrite E.
  cbn.
  repeat split; discriminate.
Qed.

(** ** Faults of the store, and what becomes of them *)

Section StoreFaults.
Import Chat.
Variable w : world.









End StoreFaults.




(** C9.  The action of [classify_intent] is one of the six that have a
    branch, so the answer of the chat endpoint is never the message of the
    last [else]. *)
Theorem classify_intent_action_known (w : world) (user_input : UserInput.t)
        (st : store) :
  In (Intent.action
        (NLPProcessor.classify_intent (UserInput.message user_input)))
     known_actions
  /\ Envelope.response (fst (Chat.chat_endpoint w user_input st))
     <> RMessage Chat.not_understood.
Proof.
  split; [apply classify_intent_known|].
  rewrite chat_endpoint_unfold. cbv zeta. cbn [fst Envelope.response].
  pose proof (dispatch_not_fallback
                w user_input
                (NLPProcessor.classify_intent (UserInput.message user_input))
                st (classify_intent_known _)) as H.
  destruct (fst (Chat.dispatch w user_input _ st)) as [r|e].
  - intros ->. now apply H.
  - discriminate.
Qed.

(** C10.  A list under the key ['symbols'] or ['numbers'] of the entities
    is never empty, so its element 0 exists; and no subscript of the
    dispatcher raises [IndexError], whatever the text. *)
Theorem extract_entities_lists_nonempty (text : string) :
  (forall l : list string,
      Entities.symbols (NLPProcessor.extract_entities text) = Some l ->
      l <> [] /\ exists x, index l 0 = Ok x)
  /\ (forall l : list Q,
         Entities.numbers (NLPProcessor.extract_entities text) = Some l ->
         l <> [] /\ exists x, index l 0 = Ok x)
  /\ (forall (w : world) (user_id : string) (st : store),
         fst (Chat.dispatch
                w {| UserInput.message := text; UserInput.user_id := user_id |}
                (NLPProcessor.classify_intent text) st)
         <> Raise IndexError).
Proof.
  split; [|split].
  - intros l H. cbn in H. apply if_nonempty_some in H.
    destruct H as [_ [x Hx]]. split.
    + intros ->. discriminate.
    + exists x. unfold index. now rewrite Hx.
  - intros l H. cbn in H. apply if_nonempty_some in H.
    destruct H as [_ [x Hx]]. split.
    + intros ->. discriminate.
    + exists x. unfold index. now rewrite Hx.
  - intros w user_id st.
    apply dispatch_no_index_error;
      rewrite classify_intent_entities; apply extract_entities_has_first.
Qed.

Lemma extract_entities_lists_nonempty_bought :
  Entities.symbols (NLPProcessor.extract_entities "I bought 10 AAPL at 100")
  = Some ["AAPL"; "AT"]
  /\ index ["AAPL"; "AT"] 0 = Ok "AAPL"
  /\ ["AAPL"; "AT"] <> [].
Proof.
  assert (E : Entities.symbols
                (NLPProcessor.extract_entities "I bought 10 AAPL at 100")
              = Some ["AAPL"; "AT"]) by (vm_compute; reflexivity).
  destruct (extract_entities_lists_nonempty "I bought 10 AAPL at 100")
    as [Hs _].
  destruct (Hs _ E) as [Hne _].
  split; [exact E|]. split; [reflexivity | exact Hne].
Defined.

(** ** The analytics engine and the gateway *)

(** C6.  [simulate_purchase] leaves the store as it found it, whether it
    returns or raises; and when the lookup of the symbol fails, what it
    returns is the object the gateway returned. *)
Theorem simulate_purchase_writes_nothing (w : world) (user_id symbol : string)
        (quantity : Q) (st : store) :
  snd (AnalyticsEngine.simulate_purchase w user_id symbol quantity st) = st
  /\ (has_error (MarketDataAPI.get_stock_info w symbol) = true ->
      fst (AnalyticsEngine.simulate_purchase w user_id symbol quantity st)
      = Ok (SimStockInfo (MarketDataAPI.get_stock_info w symbol))).
Proof.
  split; [apply simulate_purchase_store|].
  unfold AnalyticsEngine.simulate_purchase.
  destruct (MarketDataAPI.get_stock_info w symbol); cbn;
    [reflexivity | discriminate].
Qed.

Lemma simulate_purchase_failed_lookup :
  AnalyticsEngine.simulate_purchase Examples.market "u" "TSLA" 5
                                    Examples.one_holding
  = (Ok (SimStockInfo
           (StockError "Error fetching data for TSLA: connection reset")),
     Examples.one_holding).
Proof.
  destruct (simulate_purchase_writes_nothing
              Examples.market "u" "TSLA" 5 Examples.one_holding) as [Hs Hf].
  specialize (Hf eq_refl).
  destruct (AnalyticsEngine.simulate_purchase
              Examples.market "u" "TSLA" 5 Examples.one_holding) as [r st'].
  cbn [fst snd] in Hs, Hf. now rewrite Hs, Hf.
Defined.

(** C8, as the code has it.  With at least one bar, the quote's
    [day_change] is the last close minus the last open, rounded to two
    decimals; with no bar the gateway returns the object
    [{"error": "No data found for <symbol>"}] and no quote. *)
Theorem get_stock_info_day_change (w : world) (symbol : string)
        (info : list (string * pyval)) (hist : list bar) :
  ticker w symbol = YfData info hist ->
  (hist = [] ->
   MarketDataAPI.get_stock_info w symbol
   = StockError ("No data found for " ++ symbol))
  /\ (forall (bars : list bar) (b : bar),
         hist = (bars ++ [b])%list ->
         exists q : Quote.t,
           MarketDataAPI.get_stock_info w symbol = StockQuote q
           /\ Quote.day_change q = Num.round2 (Close b - Open b)%Q).
Proof.
  intro H. unfold MarketDataAPI.get_stock_info. rewrite H. split.
  - now intros ->.
  - intros bars b ->.
    destruct (bars ++ [b])%list as [|b0 rest] eqn:E.
    { now destruct bars. }
    rewrite <- E. eexists. split; [reflexivity|].
    cbn [Quote.day_change].
    replace (0 <? List.length (bars ++ [b])%list)%nat with true.
    2:{ symmetry. apply Nat.ltb_lt. rewrite E. cbn. lia. }
    unfold MarketDataAPI.iloc_last. rewrite !last_last.
    apply round2_comp, sub_correct.
Qed.

Lemma get_stock_info_day_change_aapl :
  exists q : Quote.t,
    MarketDataAPI.get_stock_info Examples.market "AAPL" = StockQuote q
    /\ Quote.day_change q = 2%Q.
Proof.
  destruct (get_stock_info_day_change
              Examples.market "AAPL"
              [("shortName", PStr "Apple Inc."); ("currency", PStr "USD")]
              [ {| Open := 118; Close := 120 |} ] eq_refl) as [_ H].
  destruct (H [] {| Open := 118; Close := 120 |} eq_refl) as [q [Hq Hd]].
  exists q. split; [exact Hq|]. rewrite Hd. reflexivity.
Defined.

(** C8, as the specification states it, fails: a symbol without bars gets
    no quote, hence no [day_change] of 0. *)
Lemma get_stock_info_no_bars_no_day_change :
  ticker Examples.market "XYZ" = YfData [] []
  /\ ~ (exists q : Quote.t,
          MarketDataAPI.get_stock_info Examples.market "XYZ" = StockQuote q
          /\ (Quote.day_change q == 0)%Q).
Proof.
  split; [reflexivity|].
  intros [q [H _]]. vm_compute in H. discriminate.
Qed.

(** ** The valuation, for every arithmetic *)

Section Valuation.
Import Analytics.
Context {F : Type} (A : Arith.t F).
Variable get_stock_info : string -> stock_info F.
Hypothesis divides : Arith.divides_by_positive A.
Hypothesis zero_no : Arith.zero_not_positive A.

(** Under the guard, the percentage exists and is the one of the
    specification. *)
Lemma pct_is_pct (profit_loss cost_basis : F) :
  exists x, pct A profit_loss cost_basis = Some x
            /\ is_pct A profit_loss cost_basis x.
Proof.
  unfold pct, is_pct.
  destruct (Arith.gt_zero A cost_basis) eqn:G.
  - destruct (divides profit_loss cost_basis G) as [ratio Hr].
    rewrite Hr. eexists. split; [reflexivity|]. split.
    + intros _. now exists ratio.
    + intro Z. apply zero_no in Z. congruence.
  - exists (Arith.zero A). split; [reflexivity|]. split.
    + discriminate.
    + reflexivity.
Qed.

(** A holding whose lookup fails leaves the three variables as they
    are. *)
Lemma loop_body_failed (a : acc F) (h : Holding.t F) (e : string) :
  get_stock_info (Holding.symbol h) = Failed e ->
  loop_body A get_stock_info a h = Some a.
Proof. intro E. unfold loop_body. now rewrite E. Qed.

(** A priced holding adds its worth and its cost to the running totals
    and one entry to the details. *)
Lemma loop_body_quoted (a : acc F) (h : Holding.t F) (q : Quote.t F) :
  get_stock_info (Holding.symbol h) = Quoted q ->
  exists d,
    loop_body A get_stock_info a h
    = Some {| total_value := Arith.add A (total_value a) (worth A (h, q));
              total_cost := Arith.add A (total_cost a) (cost A (h, q));
              portfolio_details := portfolio_details a ++ [d] |}
    /\ is_entry A (h, q) d
    /\ pct A (Arith.sub A (worth A (h, q)) (cost A (h, q))) (cost A (h, q))
       = Some (Detail.profit_loss_pct d).
Proof.
  intro E. unfold loop_body. rewrite E. cbv zeta.
  unfold worth, cost. cbn [fst snd].
  destruct (pct_is_pct
              (Arith.sub A
                 (Arith.mul A (Holding.quantity h) (Quote.current_price q))
                 (Arith.mul A (Holding.quantity h) (Holding.buy_price h)))
              (Arith.mul A (Holding.quantity h) (Holding.buy_price h)))
    as [x [Hx Hp]].
  rewrite Hx. eexists. split; [reflexivity|]. split.
  - unfold is_entry, worth, cost. cbn.
    repeat (split; [reflexivity|]). exact Hp.
  - reflexivity.
Qed.

(** The loop: the totals grow by the worth and the cost of the priced
    holdings, in their order, and the details by their entries. *)
Lemma loop_priced (hs : list (Holding.t F)) :
  forall a : acc F,
  exists ds,
    loop A get_stock_info hs a
    = Some {| total_value :=
                fold_left (Arith.add A)
                          (map (worth A) (priced get_stock_info hs))
                          (total_value a);
              total_cost :=
                fold_left (Arith.add A)
                          (map (cost A) (priced get_stock_info hs))
                          (total_cost a);
              portfolio_details := portfolio_details a ++ ds |}
    /\ Forall2 (fun p d =>
                  is_entry A p d
                  /\ pct A (Arith.sub A (worth A p) (cost A p)) (cost A p)
                     = Some (Detail.profit_loss_pct d))
               (priced get_stock_info hs) ds.
Proof.
  induction hs as [|h hs IH]; intro a.
  - exists []. split; [|constructor].
    cbn. rewrite app_nil_r. now destruct a.
  - cbn [loop priced].
    destruct (get_stock_info (Holding.symbol h)) as [e|q] eqn:E.
    + rewrite (loop_body_failed a h e E). apply IH.
    + destruct (loop_body_quoted a h q E) as [d [Hb [He Hp]]].
      rewrite Hb.
      destruct (IH {| total_value :=
                        Arith.add A (total_value a) (worth A (h, q));
                      total_cost :=
                        Arith.add A (total_cost a) (cost A (h, q));
                      portfolio_details := portfolio_details a ++ [d] |})
        as [ds [Hl Hf]].
      exists (d :: ds). split.
      * rewrite Hl. cbn [total_value total_cost portfolio_details map
                         fold_left].
        now rewrite <- app_assoc.
      * constructor; [now split | exact Hf].
Qed.

(** The unpriced holdings can be taken out of the portfolio before the
    loop: it ends as it does with them. *)
Lemma loop_skips_failed (hs : list (Holding.t F)) :
  forall a : acc F,
    loop A get_stock_info (map fst (priced get_stock_info hs)) a
    = loop A get_stock_info hs a.
Proof.
  induction hs as [|h hs IH]; intro a; [reflexivity|].
  cbn [loop priced].
  destruct (get_stock_info (Holding.symbol h)) as [e|q] eqn:E.
  - rewrite (loop_body_failed a h e E). apply IH.
  - cbn [map fst loop].
    destruct (loop_body A get_stock_info a h) as [a'|]; [apply IH|reflexivity].
Qed.

(** The priced holdings are the holdings whose lookup succeeds. *)
Lemma priced_holdings (hs : list (Holding.t F)) (h : Holding.t F) :
  In h (map fst (priced get_stock_info hs))
  <-> In h hs /\ exists q, get_stock_info (Holding.symbol h) = Quoted q.
Proof.
  induction hs as [|h' hs IH]; cbn [priced map In].
  - split; [intros [] | now intros [[] _]].
  - destruct (get_stock_info (Holding.symbol h')) as [e|q] eqn:E.
    + rewrite IH. split.
      * intros [Hin Hq]. split; [now right | exact Hq].
      * intros [[<-|Hin] [q Hq]]; [congruence|]. split; [exact Hin|].
        now exists q.
    + cbn [map fst In]. rewrite IH. split.
      * intros [<-|[Hin Hq]].
        -- split; [now left | now exists q].
        -- split; [now right | exact Hq].
      * intros [[<-|Hin] Hq]; [now left | right; now split].
Qed.

(** The whole method, for a user who has holdings. *)
Lemma calculate_portfolio_value_priced
      (get_portfolio : string -> list (Holding.t F)) (user_id : string) :
  get_portfolio user_id <> [] ->
  let ps := priced get_stock_info (get_portfolio user_id) in
  let value := total A (map (worth A) ps) in
  let spent := total A (map (cost A) ps) in
  exists r,
    calculate_portfolio_value A get_portfolio get_stock_info user_id
    = Some (Valued r)
    /\ Report.total_value r = Arith.round2 A value
    /\ Report.total_cost r = Arith.round2 A spent
    /\ Report.total_profit_loss r = Arith.round2 A (Arith.sub A value spent)
    /\ is_pct A (Arith.sub A value spent) spent
              (Report.total_profit_loss_pct r)
    /\ pct A (Arith.sub A value spent) spent
       = Some (Report.total_profit_loss_pct r)
    /\ Forall2 (fun p d =>
                  is_entry A p d
                  /\ pct A (Arith.sub A (worth A p) (cost A p)) (cost A p)
                     = Some (Detail.profit_loss_pct d))
               ps (Report.holdings r).
Proof.
  intro Hne. cbv zeta. unfold calculate_portfolio_value.
  destruct (loop_priced (get_portfolio user_id)
                        {| total_value := Arith.zero A;
                           total_cost := Arith.zero A;
                           portfolio_details := [] |}) as [ds [Hl Hf]].
  destruct (get_portfolio user_id) as [|h hs] eqn:E; [congruence|].
  rewrite Hl. unfold report_of.
  cbn [total_value total_cost portfolio_details app].
  fold (total A (map (worth A) (priced get_stock_info (h :: hs)))).
  fold (total A (map (cost A) (priced get_stock_info (h :: hs)))).
  destruct (pct_is_pct
              (Arith.sub A
                 (total A (map (worth A) (priced get_stock_info (h :: hs))))
                 (total A (map (cost A) (priced get_stock_info (h :: hs)))))
              (total A (map (cost A) (priced get_stock_info (h :: hs)))))
    as [x [Hx Hp]].
  rewrite Hx. eexists. split; [reflexivity|].
  cbn [Report.total_value Report.total_cost Report.total_profit_loss
       Report.total_profit_loss_pct Report.holdings].
  repeat (split; [reflexivity|]).
  split; [exact Hp|]. split; [reflexivity | exact Hf].
Qed.

End Valuation.

(** The rationals of [Num] are an arithmetic of the kind asked for. *)
Lemma exact_zero_not_positive : Arith.zero_not_positive Arith.exact.
Proof.
  intros x E. cbn in *. apply Qeq_bool_iff in E.
  unfold Num.ltb. apply negb_false_iff.
  apply Qle_bool_iff. rewrite E. apply Qle_refl.
Qed.

Lemma exact_divides_by_positive : Arith.divides_by_positive Arith.exact.
Proof.
  intros x y H.
  cbn [Arith.div Arith.exact].
  destruct (Qeq_bool y 0) eqn:E; [|eauto].
  apply exact_zero_not_positive in E. congruence.
Qed.

(** ** The engine of the router is the engine over the rationals *)

Section ExactEngine.
Variable w : world.

Lemma pct_exact (profit_loss cost_basis : Q) :
  Analytics.pct Arith.exact profit_loss cost_basis
  = Some (AnalyticsEngine.pct profit_loss cost_basis).
Proof.
  unfold Analytics.pct, AnalyticsEngine.pct.
  cbn [Arith.gt_zero Arith.exact Arith.zero Arith.round2 Arith.mul
       Arith.hundred].
  destruct (Num.ltb 0 cost_basis) eqn:G; [|reflexivity].
  destruct (exact_divides_by_positive profit_loss cost_basis G) as [z Hz].
  rewrite Hz. cbn [Arith.div Arith.exact] in Hz.
  destruct (Qeq_bool cost_basis 0); [discriminate|].
  now injection Hz as <-.
Qed.

Lemma loop_body_exact (a : AnalyticsEngine.acc) (h : Holding.t) :
  Analytics.loop_body
    Arith.exact (fun s => Exact.info (MarketDataAPI.get_stock_info w s))
    (Exact.acc a) (Exact.holding h)
  = Some (Exact.acc (AnalyticsEngine.loop_body w a h)).
Proof.
  unfold Analytics.loop_body, AnalyticsEngine.loop_body.
  cbn [Exact.holding Analytics.Holding.symbol Analytics.Holding.quantity
       Analytics.Holding.buy_price].
  destruct (MarketDataAPI.get_stock_info w (Holding.symbol h)) as [e|q];
    cbn [Exact.info]; [reflexivity|].
  cbv zeta.
  cbn [Analytics.Quote.current_price Analytics.Quote.name].
  rewrite pct_exact.
  unfold Exact.acc.
  cbn [AnalyticsEngine.total_value AnalyticsEngine.total_cost
       AnalyticsEngine.portfolio_details Analytics.total_value
       Analytics.total_cost Analytics.portfolio_details].
  rewrite map_app. reflexivity.
Qed.

Lemma loop_exact (hs : list Holding.t) :
  forall a : AnalyticsEngine.acc,
    Analytics.loop
      Arith.exact (fun s => Exact.info (MarketDataAPI.get_stock_info w s))
      (map Exact.holding hs) (Exact.acc a)
    = Some (Exact.acc (fold_left (AnalyticsEngine.loop_body w) hs a)).
Proof.
  induction hs as [|h hs IH]; intro a; [reflexivity|].
  cbn [map Analytics.loop fold_left].
  rewrite loop_body_exact. apply IH.
Qed.

(** What the router's engine answers from the rows of the store is what
    the engine over the rationals answers from the same holdings and
    quotes. *)
Lemma calculate_portfolio_value_exact (user_id : string) (st : store)
      (hs : list Holding.t) :
  fst (PortfolioDatabase.get_portfolio w user_id st) = Ok hs ->
  exists p,
    AnalyticsEngine.calculate_portfolio_value w user_id st = (Ok p, st)
    /\ Analytics.calculate_portfolio_value
         Arith.exact (fun _ => map Exact.holding hs)
         (fun s => Exact.info (MarketDataAPI.get_stock_info w s)) user_id
       = Some (Exact.value p).
Proof.
  intro H.
  unfold AnalyticsEngine.calculate_portfolio_value, bind,
    Analytics.calculate_portfolio_value.
  pose proof (get_portfolio_store w user_id st) as Hs.
  destruct (PortfolioDatabase.get_portfolio w user_id st) as [r st'].
  cbn [fst snd] in H, Hs. subst r st'.
  destruct hs as [|h hs]; [eexists; split; reflexivity|].
  eexists. split; [reflexivity|].
  change {| Analytics.total_value := Arith.zero Arith.exact;
            Analytics.total_cost := Arith.zero Arith.exact;
            Analytics.portfolio_details := [] |}
    with (Exact.acc {| AnalyticsEngine.total_value := 0;
                       AnalyticsEngine.total_cost := 0;
                       AnalyticsEngine.portfolio_details := [] |}).
  cbn [map].
  change (Exact.holding h :: map Exact.holding hs)
    with (map Exact.holding (h :: hs)).
  rewrite loop_exact.
  unfold Analytics.report_of.
  cbn [Exact.acc Analytics.total_value Analytics.total_cost
       Analytics.portfolio_details].
  rewrite pct_exact. reflexivity.
Qed.

End ExactEngine.

(** C4.  For a user who has holdings, in every arithmetic where a
    division by a positive number succeeds and no zero is positive, the
    report exists and its detail list pairs off, in order, with the priced
    holdings: each entry is the entry of section 4.4 for its holding
    (current_value = quantity * current_price, cost_basis = quantity *
    buy_price, profit_loss their difference, each rounded at output, and
    profit_loss_pct = 100 * profit_loss / cost_basis, 0 when the cost basis
    is 0).  When one holding is priced and adding its amounts to 0 gives
    them back, the four totals are the figures of its entry.  Over the
    rationals, 10 shares bought at 100 and quoted 120 give 1200, 1000, 200
    and 20, in the entry and in the totals. *)
Theorem calculate_portfolio_value_entries :
  (forall (F : Type) (A : Arith.t F)
          (get_portfolio : string -> list (Analytics.Holding.t F))
          (get_stock_info : string -> Analytics.stock_info F)
          (user_id : string),
      Arith.divides_by_positive A ->
      Arith.zero_not_positive A ->
      get_portfolio user_id <> [] ->
      exists r,
        Analytics.calculate_portfolio_value A get_portfolio get_stock_info
                                            user_id
        = Some (Analytics.Valued r)
        /\ Forall2 (Analytics.is_entry A)
                   (Analytics.priced get_stock_info (get_portfolio user_id))
                   (Analytics.Report.holdings r)
        /\ forall p,
            Analytics.priced get_stock_info (get_portfolio user_id) = [p] ->
            Arith.add A (Arith.zero A) (Analytics.worth A p)
            = Analytics.worth A p ->
            Arith.add A (Arith.zero A) (Analytics.cost A p)
            = Analytics.cost A p ->
            exists d,
              Analytics.Report.holdings r = [d]
              /\ Analytics.Report.total_value r
                 = Analytics.Detail.current_value d
              /\ Analytics.Report.total_cost r
                 = Analytics.Detail.cost_basis d
              /\ Analytics.Report.total_profit_loss r
                 = Analytics.Detail.profit_loss d
              /\ Analytics.Report.total_profit_loss_pct r
                 = Analytics.Detail.profit_loss_pct d)
  /\ Analytics.calculate_portfolio_value
       Arith.exact Examples.portfolios Examples.quotes "u"
     = Some (Analytics.Valued
               {| Analytics.Report.total_value := 1200%Q;
                  Analytics.Report.total_cost := 1000%Q;
                  Analytics.Report.total_profit_loss := 200%Q;
                  Analytics.Report.total_profit_loss_pct := 20%Q;
                  Analytics.Report.holdings :=
                    [ {| Analytics.Detail.symbol := "AAPL";
                         Analytics.Detail.name := PStr "N/A";
                         Analytics.Detail.quantity := 10%Q;
                         Analytics.Detail.buy_price := 100%Q;
                         Analytics.Detail.current_price := 120%Q;
                         Analytics.Detail.current_value := 1200%Q;
                         Analytics.Detail.cost_basis := 1000%Q;
                         Analytics.Detail.profit_loss := 200%Q;
                         Analytics.Detail.profit_loss_pct := 20%Q |} ] |}).
Proof.
  split; [|vm_compute; reflexivity].
  intros F A get_portfolio get_stock_info user_id Hd Hz Hne.
  destruct (calculate_portfolio_value_priced
              A get_stock_info Hd Hz get_portfolio user_id Hne)
    as [r [Hr [Hv [Hc [Hpl [_ [Hpct Hf]]]]]]].
  exists r. split; [exact Hr|]. split.
  - revert Hf. apply Forall2_impl. now intros p d [H _].
  - intros p Hp Hw Hs. rewrite Hp in *.
    inversion Hf as [|p' d ps' ds [He Hq] Hnil Ep Ed]. subst.
    inversion Hnil. subst.
    exists d. split; [reflexivity|].
    unfold Analytics.total in *. cbn [map fold_left] in *.
    rewrite Hw, Hs in *.
    destruct He as [_ [_ [_ [_ [_ [Ev [Ec [El _]]]]]]]].
    cbv zeta in Ev, Ec, El.
    rewrite Hv, Hc, Hpl, Ev, Ec, El.
    repeat (split; [reflexivity|]).
    congruence.
Qed.

(** The example of C4 through the theorem: the one holding of "u" is
    priced, and the totals of the report are the figures of its entry,
    1200, 1000, 200 and 20. *)
Lemma calculate_portfolio_value_entries_one_holding :
  exists r d,
    Analytics.calculate_portfolio_value
      Arith.exact Examples.portfolios Examples.quotes "u"
    = Some (Analytics.Valued r)
    /\ Analytics.Report.holdings r = [d]
    /\ Analytics.Report.total_value r = Analytics.Detail.current_value d
    /\ Analytics.Report.total_profit_loss_pct r
       = Analytics.Detail.profit_loss_pct d
    /\ Analytics.Detail.current_value d = 1200%Q
    /\ Analytics.Detail.cost_basis d = 1000%Q
    /\ Analytics.Detail.profit_loss d = 200%Q
    /\ Analytics.Detail.profit_loss_pct d = 20%Q.
Proof.
  destruct (proj1 calculate_portfolio_value_entries
                  Q Arith.exact Examples.portfolios Examples.quotes "u"
                  exact_divides_by_positive exact_zero_not_positive)
    as [r [Hr [Hf Ht]]]; [discriminate|].
  destruct (Ht (Examples.held "AAPL" 10 100,
                {| Analytics.Quote.symbol := "AAPL";
                   Analytics.Quote.name := PStr "N/A";
                   Analytics.Quote.current_price := 120%Q;
                   Analytics.Quote.currency := PStr "USD";
                   Analytics.Quote.sector := PStr "N/A";
                   Analytics.Quote.market_cap := PNum 0;
                   Analytics.Quote.pe_ratio := PStr "N/A";
                   Analytics.Quote.day_change := 2%Q |})
               eq_refl eq_refl eq_refl)
    as [d [Hd [Hv [_ [_ Hp]]]]].
  exists r, d. split; [exact Hr|]. split; [exact Hd|].
  split; [exact Hv|]. split; [exact Hp|].
  vm_compute in Hr. injection Hr as <-.
  cbn [Analytics.Report.holdings] in Hd. injection Hd as <-.
  repeat split.
Defined.

(** C5.  For a user who has holdings, in every such arithmetic: the
    priced holdings are exactly the holdings whose lookup succeeds; the
    four totals are the rounded sums, the difference and the percentage
    over them and no other holding; the detail list has their entries and
    no other; and the report is, field for field, the report of the
    portfolio from which the unpriced holdings have been taken out, so
    nothing in it tells that a holding was left out. *)
Theorem calculate_portfolio_value_skips_unpriced
        (F : Type) (A : Arith.t F)
        (get_portfolio : string -> list (Analytics.Holding.t F))
        (get_stock_info : string -> Analytics.stock_info F)
        (user_id : string) :
  Arith.divides_by_positive A ->
  Arith.zero_not_positive A ->
  get_portfolio user_id <> [] ->
  let holdings := get_portfolio user_id in
  let ps := Analytics.priced get_stock_info holdings in
  let value := Analytics.total A (map (Analytics.worth A) ps) in
  let spent := Analytics.total A (map (Analytics.cost A) ps) in
  exists r,
    Analytics.calculate_portfolio_value A get_portfolio get_stock_info
                                        user_id
    = Some (Analytics.Valued r)
    /\ (forall h,
          In h (map fst ps)
          <-> In h holdings
              /\ exists q,
                  get_stock_info (Analytics.Holding.symbol h)
                  = Analytics.Quoted q)
    /\ Analytics.Report.total_value r = Arith.round2 A value
    /\ Analytics.Report.total_cost r = Arith.round2 A spent
    /\ Analytics.Report.total_profit_loss r
       = Arith.round2 A (Arith.sub A value spent)
    /\ Analytics.is_pct A (Arith.sub A value spent) spent
                        (Analytics.Report.total_profit_loss_pct r)
    /\ Forall2 (Analytics.is_entry A) ps (Analytics.Report.holdings r)
    /\ (ps <> [] ->
        Analytics.calculate_portfolio_value
          A (fun _ => map fst ps) get_stock_info user_id
        = Some (Analytics.Valued r)).
Proof.
  intros Hd Hz Hne. cbv zeta.
  destruct (calculate_portfolio_value_priced
              A get_stock_info Hd Hz get_portfolio user_id Hne)
    as [r [Hr [Hv [Hc [Hpl [Hp [_ Hf]]]]]]].
  exists r. split; [exact Hr|].
  split; [intro h; apply priced_holdings|].
  split; [exact Hv|]. split; [exact Hc|]. split; [exact Hpl|].
  split; [exact Hp|]. split.
  - revert Hf. apply Forall2_impl. now intros p d [H _].
  - intro Hps. rewrite <- Hr.
    unfold Analytics.calculate_portfolio_value.
    rewrite (loop_skips_failed A get_stock_info (get_portfolio user_id)).
    destruct (get_portfolio user_id) as [|h hs]; [congruence|].
    destruct (map fst (Analytics.priced get_stock_info (h :: hs))) eqn:E;
      [|reflexivity].
    apply map_eq_nil in E. congruence.
Qed.

(** User "v" holds AAPL, which is quoted, and TSLA, which is not: the
    report is the one of AAPL alone. *)
Lemma calculate_portfolio_value_skips_tsla :
  exists r,
    Analytics.calculate_portfolio_value
      Arith.exact Examples.portfolios Examples.quotes "v"
    = Some (Analytics.Valued r)
    /\ Analytics.calculate_portfolio_value
         Arith.exact Examples.portfolios Examples.quotes "u"
       = Some (Analytics.Valued r)
    /\ Analytics.Report.total_value r = 1200%Q
    /\ Analytics.Report.total_cost r = 1000%Q
    /\ Analytics.Report.total_profit_loss r = 200%Q
    /\ Analytics.Report.total_profit_loss_pct r = 20%Q
    /\ map Analytics.Detail.symbol (Analytics.Report.holdings r) = ["AAPL"].
Proof.
  destruct (calculate_portfolio_value_skips_unpriced
              Q Arith.exact Examples.portfolios Examples.quotes "v"
              exact_divides_by_positive exact_zero_not_positive)
    as [r [Hr _]]; [discriminate|].
  exists r. split; [exact Hr|].
  vm_compute in Hr. injection Hr as <-.
  repeat split.
Defined.

(** ** The store: one holding per user and symbol *)

Section Store.
Import PortfolioDatabase.
Local Open Scope list_scope.

Lemma same_key_spec (user_id symbol : string) (r : HoldingRow.t) :
  same_key user_id symbol r = true <-> holding_key r = (user_id, symbol).
Proof.
  unfold same_key, holding_key. rewrite andb_true_iff, !String.eqb_eq.
  split; [intros [-> ->]; reflexivity | intro H; now injection H].
Qed.

(** Deleting rows keeps the keys of a table distinct. *)
Lemma delete_keeps_keys_distinct (keep : HoldingRow.t -> bool)
      (rows : list HoldingRow.t) :
  NoDup (map holding_key rows) ->
  NoDup (map holding_key (filter keep rows)).
Proof.
  intro Hrows. induction rows as [|row rows IH]; cbn in *; [exact Hrows|].
  apply NoDup_cons_iff in Hrows. destruct Hrows as [Hrow Hrest].
  destruct (keep row); cbn; [|now apply IH].
  constructor; [|now apply IH].
  intro Hin. apply Hrow.
  apply in_map_iff in Hin. destruct Hin as [other [Hkey Hother]].
  apply filter_In in Hother. apply in_map_iff. exists other. tauto.
Qed.

(** [INSERT OR REPLACE] keeps the keys distinct. *)
Lemma insert_or_replace_unique (r : HoldingRow.t) (rows : list HoldingRow.t) :
  NoDup (map holding_key rows) ->
  NoDup (map holding_key (insert_or_replace r rows)).
Proof.
  intro H. unfold insert_or_replace. rewrite map_app.
  apply NoDup_app.
  - now apply delete_keeps_keys_distinct.
  - cbn. constructor; [intros []|constructor].
  - intros k Hk [<-|[]].
    apply in_map_iff in Hk. destruct Hk as [x [Hx Hin]].
    apply filter_In in Hin. destruct Hin as [_ Hneg].
    apply negb_true_iff in Hneg.
    assert (T : same_key (HoldingRow.user_id r) (HoldingRow.symbol r) x
                = true) by (apply same_key_spec; exact Hx).
    congruence.
Qed.

(** The rows of a key after [INSERT OR REPLACE]: the new row alone for
    its own key, the rows that were there for any other. *)
Lemma insert_or_replace_lookup (r : HoldingRow.t)
      (rows : list HoldingRow.t) (user_id symbol : string) :
  filter (same_key user_id symbol) (insert_or_replace r rows)
  = if same_key user_id symbol r then [r]
    else filter (same_key user_id symbol) rows.
Proof.
  unfold insert_or_replace. rewrite filter_app. cbn [filter].
  destruct (same_key user_id symbol r) eqn:E.
  - apply same_key_spec in E.
    replace (filter (same_key user_id symbol) (filter _ rows)) with
      (@nil HoldingRow.t); [reflexivity|].
    symmetry. induction rows as [|x rows IH]; cbn; [reflexivity|].
    destruct (same_key (HoldingRow.user_id r) (HoldingRow.symbol r) x)
      eqn:Ex; cbn; [exact IH|].
    destruct (same_key user_id symbol x) eqn:Ey; [|exact IH].
    apply same_key_spec in Ey.
    assert (T : same_key (HoldingRow.user_id r) (HoldingRow.symbol r) x
                = true).
    { apply same_key_spec. rewrite Ey. symmetry. exact E. }
    congruence.
  - rewrite app_nil_r.
    induction rows as [|x rows IH]; cbn; [reflexivity|].
    destruct (same_key (HoldingRow.user_id r) (HoldingRow.symbol r) x)
      eqn:Ex; cbn.
    + destruct (same_key user_id symbol x) eqn:Ey; [|exact IH].
      apply same_key_spec in Ex, Ey.
      assert (T : same_key user_id symbol r = true).
      { apply same_key_spec. unfold holding_key.
        rewrite <- Ey. symmetry. exact Ex. }
      congruence.
    + destruct (same_key user_id symbol x); [now rewrite IH | exact IH].
Qed.

(** One purchase recorded over a database without fault. *)
Lemma record_purchase_store (w : world) (st : store) (p : Purchase.t) :
  sqlite_fault w MAddHolding = None ->
  exists (h : HoldingRow.t) (t : TransactionRow.t),
    record_purchase w st p
    = {| holdings := insert_or_replace h (holdings st);
         alerts := alerts st;
         transactions := transactions st ++ [t] |}
    /\ holding_data h
       = (Purchase.user_id p, Purchase.symbol p, Purchase.quantity p,
          Purchase.price p, now w 0)
    /\ transaction_data t
       = (Purchase.user_id p, Purchase.symbol p, "BUY"%string,
          Purchase.quantity p, Purchase.price p, now w 1).
Proof.
  intro H. unfold record_purchase, add_holding, connect, bind.
  rewrite H. cbn. eexists. eexists. split; [reflexivity|].
  split; reflexivity.
Qed.

End Store.

(** C7.  After any sequence of [add_holding] calls on a store whose
    holdings have distinct keys (the constraint of the table), the keys
    (user_id, symbol) are still distinct; the rows of a key are the one row
    of the last purchase of that key, with its quantity, price and date,
    or, when the key was not purchased, what the store had; each call has
    appended one "BUY" transaction, in order; the alerts are as before. *)
Theorem add_holding_replaces_and_logs (w : world) (ps : list Purchase.t)
        (st : store) :
  sqlite_fault w MAddHolding = None ->
  NoDup (map holding_key (holdings st)) ->
  let st' := record_purchases w ps st in
  NoDup (map holding_key (holdings st'))
  /\ (forall user_id symbol : string,
         map holding_data
             (filter (PortfolioDatabase.same_key user_id symbol)
                     (holdings st'))
         = match last_purchase user_id symbol ps with
           | Some p => [purchase_holding w p]
           | None =>
               map holding_data
                   (filter (PortfolioDatabase.same_key user_id symbol)
                           (holdings st))
           end)
  /\ map transaction_data (transactions st')
     = (map transaction_data (transactions st)
        ++ map (purchase_transaction w) ps)%list
  /\ alerts st' = alerts st.
Proof.
  intro Hw. revert st.
  induction ps as [|p ps IH]; intros st Hst; cbn zeta.
  - cbn. split; [exact Hst|]. split; [reflexivity|].
    split; [now rewrite app_nil_r | reflexivity].
  - cbn [record_purchases fold_left].
    destruct (record_purchase_store w st p Hw) as [h [t [E [Hh Ht]]]].
    assert (Hst1 : NoDup (map holding_key (holdings (record_purchase w st p)))).
    { rewrite E. cbn [holdings]. now apply insert_or_replace_unique. }
    destruct (IH (record_purchase w st p) Hst1) as [I1 [I2 [I3 I4]]].
    fold (record_purchases w ps (record_purchase w st p)).
    split; [exact I1|]. split; [|split].
    + intros user_id symbol. rewrite I2. cbn [last_purchase].
      destruct (last_purchase user_id symbol ps) as [p'|]; [reflexivity|].
      rewrite E. cbn [holdings]. rewrite insert_or_replace_lookup.
      assert (K : PortfolioDatabase.same_key user_id symbol h
                  = (String.eqb (Purchase.user_id p) user_id
                     && String.eqb (Purchase.symbol p) symbol)%bool).
      { unfold PortfolioDatabase.same_key.
        unfold holding_data in Hh. injection Hh as -> -> _ _ _.
        reflexivity. }
      rewrite K.
      destruct (String.eqb (Purchase.user_id p) user_id
                && String.eqb (Purchase.symbol p) symbol)%bool;
        [|reflexivity].
      cbn [map]. now rewrite Hh.
    + rewrite I3, E. cbn [transactions map].
      rewrite map_app. cbn [map]. rewrite Ht.
      now rewrite <- app_assoc.
    + rewrite I4, E. reflexivity.
Qed.

(** The purchase of the specification repeated: 10 AAPL at 150, then 20
    AAPL at 160, leave the one holding of 20 at 160 and two transactions. *)
Lemma add_holding_twice :
  let st := record_purchases
              Examples.market
              [Examples.buy "u" "AAPL" 10 150; Examples.buy "u" "AAPL" 20 160]
              PortfolioDatabase.init_database in
  map holding_data (holdings st)
  = [("u", "AAPL", 20%Q, 160%Q, "2024-01-01T10:00:00.000001")]
  /\ map transaction_data (transactions st)
     = [("u", "AAPL", "BUY", 10%Q, 150%Q, "2024-01-01T10:00:00.000002");
        ("u", "AAPL", "BUY", 20%Q, 160%Q, "2024-01-01T10:00:00.000002")]
  /\ NoDup (map holding_key (holdings st)).
Proof.
  cbv zeta.
  destruct (add_holding_replaces_and_logs
              Examples.market
              [Examples.buy "u" "AAPL" 10 150; Examples.buy "u" "AAPL" 20 160]
              PortfolioDatabase.init_database eq_refl (NoDup_nil _))
    as [Hu [_ [Ht _]]].
  split; [vm_compute; reflexivity|].
  split; [exact Ht | exact Hu].
Defined.

(* ================================================================== *)
(** * Further properties of the code *)
(* ================================================================== *)

(** ** What the extractor can yield *)

Section Extraction.
Import NLPProcessor Text Regex.

Lemma digits_val_nonneg (s : string) (acc : Z) :
  (0 <= acc)%Z -> (0 <= Num.digits_val acc s)%Z.
Proof.
  revert acc.
  induction s as [|c s IH]; intros acc H; cbn [Num.digits_val]; [exact H|].
  apply IH. unfold Num.digit_val. lia.
Qed.

Lemma float_of_string_nonneg (n : string) : (0 <= Num.float_of_string n)%Q.
Proof.
  unfold Num.float_of_string.
  destruct (Num.split_point n) as [ip fp].
  rewrite Qred_correct. unfold Qle. cbn [Qnum Qden].
  pose proof (digits_val_nonneg (ip ++ fp) 0%Z (Z.le_refl 0)). lia.
Qed.

(** What [findall] lists was matched somewhere in the text. *)
Lemma findall_from_matched (r : regex) (s : string) (prev : option ascii)
      (skip : nat) (m : string) :
  In m (findall_from r prev skip s) ->
  exists (prev' : option ascii) (s' : string) (n : nat),
    match_here r prev' s' = Some n /\ m = take n s'.
Proof.
  revert prev skip. induction s as [|c s IH]; intros prev skip H.
  - destruct skip; cbn in H; [|contradiction].
    destruct (match_here r prev "") as [n|] eqn:E; cbn in H;
      [|contradiction].
    destruct H as [<-|[]]. now exists prev, ""%string, n.
  - destruct skip as [|k]; cbn in H.
    + destruct (match_here r prev (String c s)) as [n|] eqn:E.
      * destruct H as [<-|H]; [now exists prev, (String c s), n|].
        now apply IH in H.
      * now apply IH in H.
    + now apply IH in H.
Qed.

Lemma match_here_rep (a : atom) (lo : nat) (hi : option nat) (r : regex)
      (prev : option ascii) (s : string) :
  match_here (Rep a lo hi :: r) prev s
  = rep_from a lo hi (match_here r) 0 prev s.
Proof.
  cbn [match_here]. generalize 0%nat as n. revert prev.
  induction s as [|c s IH]; intros prev n; cbn; [reflexivity|].
  now rewrite IH.
Qed.

(** A run the symbol pattern takes: at most four capitals in all, at
    least two, and capitals only. *)
Lemma upper_run (s : string) (n : nat) (prev : option ascii) (k : nat) :
  rep_from AUpper 2 (Some 4) (match_here [WordB]) n prev s = Some k ->
  (n <= 4)%nat ->
  (2 <= n + k <= 4)%nat
  /\ String.length (take k s) = k
  /\ all_chars is_upper (take k s) = true.
Proof.
  revert n prev k. induction s as [|c s IH]; intros n prev k H Hn.
  - cbn [rep_from match_here] in H.
    destruct (2 <=? n)%nat eqn:E; [|discriminate].
    apply Nat.leb_le in E.
    destruct (boundary prev ""); [|discriminate].
    injection H as <-. cbn. repeat split; lia.
  - cbn [rep_from] in H.
    assert (Stop : (if (2 <=? n)%nat
                    then match_here [WordB] prev (String c s) else None)
                   = Some k ->
                   (2 <= n + k <= 4)%nat
                   /\ String.length (take k (String c s)) = k
                   /\ all_chars is_upper (take k (String c s)) = true).
    { destruct (2 <=? n)%nat eqn:E; [|discriminate].
      apply Nat.leb_le in E. cbn [match_here].
      destruct (boundary prev (String c s)); [|discriminate].
      intro H'. injection H' as <-. cbn. repeat split; lia. }
    destruct (atom_ok AUpper c && may_take n (Some 4)) eqn:T;
      [|now apply Stop].
    apply andb_true_iff in T. destruct T as [Tc Tn].
    cbn [atom_ok] in Tc. unfold may_take in Tn. apply Nat.ltb_lt in Tn.
    destruct (rep_from AUpper 2 (Some 4) (match_here [WordB]) (S n)
                       (Some c) s) as [j|] eqn:R; cbn in H.
    + injection H as <-.
      destruct (IH (S n) (Some c) j R) as [B [L U]]; [lia|].
      cbn. rewrite L, U, Tc. repeat split; lia.
    + now apply Stop.
Qed.

Lemma symbol_match (prev : option ascii) (s : string) (k : nat) :
  match_here symbol_pattern prev s = Some k ->
  (2 <= String.length (take k s) <= 4)%nat
  /\ all_chars is_upper (take k s) = true.
Proof.
  unfold symbol_pattern. cbn [match_here].
  destruct (boundary prev s); [|discriminate].
  change ((fix rep (n : nat) (prev0 : option ascii) (s0 : string)
             {struct s0} : option nat := _) 0%nat prev s)
    with (match_here [Rep AUpper 2 (Some 4); WordB] prev s).
  rewrite match_here_rep. intro H.
  destruct (upper_run s 0 prev k H) as [B [L U]]; [lia|].
  rewrite L. split; [lia | exact U].
Qed.

Lemma lower_upper_char (c : ascii) : lower_char (upper_char c) = lower_char c.
Proof.
  destruct c as [[] [] [] [] [] [] [] []]; reflexivity.
Qed.

Lemma upper_lower_char (c : ascii) : upper_char (lower_char c) = upper_char c.
Proof.
  destruct c as [[] [] [] [] [] [] [] []]; reflexivity.
Qed.

Lemma upper_lower (s : string) : upper (lower s) = upper s.
Proof.
  induction s as [|c s IH]; cbn; [reflexivity|].
  f_equal; [apply upper_lower_char | exact IH].
Qed.

End Extraction.

(** X1.  A number extracted from a text is never negative: the pattern
    takes digits and a point, no sign, so "-5" gives 5. *)
Theorem extract_entities_numbers_nonnegative (text : string) (l : list Q)
        (x : Q) :
  Entities.numbers (NLPProcessor.extract_entities text) = Some l ->
  In x l ->
  (0 <= x)%Q.
Proof.
  intros H Hin. cbn in H. apply if_nonempty_some in H.
  destruct H as [-> _].
  apply in_map_iff in Hin. destruct Hin as [n [<- _]].
  apply float_of_string_nonneg.
Qed.

Lemma extract_entities_numbers_minus_five :
  Entities.numbers (NLPProcessor.extract_entities "buy -5 AAPL") = Some [5%Q]
  /\ (0 <= 5)%Q.
Proof.
  assert (E : Entities.numbers (NLPProcessor.extract_entities "buy -5 AAPL")
              = Some [5%Q]) by (vm_compute; reflexivity).
  split; [exact E|].
  exact (extract_entities_numbers_nonnegative
           "buy -5 AAPL" [5%Q] 5%Q E (or_introl eq_refl)).
Defined.

(** X2.  A symbol extracted from a text is two to four characters long
    and made of capital letters only. *)
Theorem extract_entities_symbols_shape (text : string) (l : list string)
        (m : string) :
  Entities.symbols (NLPProcessor.extract_entities text) = Some l ->
  In m l ->
  (2 <= String.length m <= 4)%nat /\ all_chars Text.is_upper m = true.
Proof.
  intros H Hin. cbn in H. apply if_nonempty_some in H.
  destruct H as [-> _].
  apply findall_from_matched in Hin.
  destruct Hin as [prev [s [n [Hm ->]]]].
  now apply symbol_match in Hm.
Qed.

Lemma extract_entities_symbols_shape_aapl :
  Entities.symbols (NLPProcessor.extract_entities "price of aapl please")
  = Some ["OF"; "AAPL"]
  /\ (2 <= String.length "AAPL" <= 4)%nat.
Proof.
  assert (E : Entities.symbols
                (NLPProcessor.extract_entities "price of aapl please")
              = Some ["OF"; "AAPL"]) by (vm_compute; reflexivity).
  split; [exact E|].
  exact (proj1 (extract_entities_symbols_shape
                  "price of aapl please" ["OF"; "AAPL"] "AAPL" E
                  (or_intror (or_introl eq_refl)))).
Defined.

(** X3.  Letter case does not matter to the classifier, for texts in
    ASCII (where [Text.lower] and [Text.upper] are [str.lower] and
    [str.upper]): two such texts with the same lower-case form get the
    same action and confidence, the same symbols and the same condition.
    Outside ASCII the statement is not made: the sharp s and its capital
    have one lower-case form and two upper-case forms. *)
Theorem classify_intent_ignores_case (text text' : string) :
  isascii text = true ->
  isascii text' = true ->
  Text.lower text = Text.lower text' ->
  let i := NLPProcessor.classify_intent text in
  let i' := NLPProcessor.classify_intent text' in
  Intent.action i = Intent.action i'
  /\ Intent.confidence i = Intent.confidence i'
  /\ Entities.symbols (Intent.entities i)
     = Entities.symbols (Intent.entities i')
  /\ Entities.condition (Intent.entities i)
     = Entities.condition (Intent.entities i').
Proof.
  intros _ _ H. cbv zeta.
  assert (U : Text.upper text = Text.upper text').
  { rewrite <- (upper_lower text), <- (upper_lower text'). now rewrite H. }
  rewrite !classify_intent_entities.
  unfold NLPProcessor.classify_intent, NLPProcessor.extract_entities.
  rewrite H, U.
  destruct (NLPProcessor.first_match NLPProcessor.intent_patterns
                                     (Text.lower text'));
    repeat split.
Qed.

Lemma classify_intent_ignores_case_compare :
  Intent.action (NLPProcessor.classify_intent "Compare AAPL vs TSLA")
  = Intent.action (NLPProcessor.classify_intent "compare aapl VS tsla")
  /\ Entities.symbols
       (Intent.entities (NLPProcessor.classify_intent "compare aapl VS tsla"))
     = Some ["AAPL"; "VS"; "TSLA"].
Proof.
  destruct (classify_intent_ignores_case
              "Compare AAPL vs TSLA" "compare aapl VS tsla"
              eq_refl eq_refl eq_refl)
    as [Ha [_ [Hs _]]].
  split; [exact Ha|]. rewrite <- Hs. vm_compute. reflexivity.
Defined.

(** ** The store: what is written can be read back *)

Section StoreReads.
Import PortfolioDatabase.
Local Open Scope list_scope.

Lemma insert_by_symbol_perm (r : HoldingRow.t) (rows : list HoldingRow.t) :
  Permutation (insert_by_symbol r rows) (r :: rows).
Proof.
  induction rows as [|x rows IH]; cbn; [reflexivity|].
  destruct (String.ltb (HoldingRow.symbol r) (HoldingRow.symbol x));
    [reflexivity|].
  rewrite IH. apply perm_swap.
Qed.

Lemma index_order_perm (rows : list HoldingRow.t) :
  Permutation (index_order rows) rows.
Proof.
  unfold index_order.
  assert (G : forall acc,
             Permutation
               (fold_left (fun acc r => insert_by_symbol r acc) rows acc)
               (rows ++ acc)).
  { induction rows as [|r rows IH]; intro acc; cbn; [reflexivity|].
    rewrite IH, insert_by_symbol_perm. symmetry. apply Permutation_middle. }
  rewrite G. now rewrite app_nil_r.
Qed.

Lemma filter_perm {A} (p : A -> bool) (l l' : list A) :
  Permutation l l' -> Permutation (filter p l) (filter p l').
Proof.
  induction 1 as [|x l l' _ IH|x y l|l l' l'' _ IH1 _ IH2]; cbn.
  - reflexivity.
  - destruct (p x); [now constructor | exact IH].
  - destruct (p x), (p y); try reflexivity. apply perm_swap.
  - now transitivity (filter p l').
Qed.

Lemma filter_twice {A} (p q : A -> bool) (l : list A) :
  filter p (filter q l) = filter (fun x => q x && p x) l.
Proof.
  induction l as [|x l IH]; cbn; [reflexivity|].
  destruct (q x); cbn; [|exact IH].
  destruct (p x); now rewrite IH.
Qed.

Lemma filter_of_map {A B} (f : A -> B) (p : B -> bool) (l : list A) :
  filter p (map f l) = map f (filter (fun x => p (f x)) l).
Proof.
  induction l as [|x l IH]; cbn; [reflexivity|].
  destruct (p (f x)); cbn; now rewrite IH.
Qed.

(** The store after [add_holding], with and without a fault. *)
Lemma add_holding_store (w : world) (user_id symbol : string)
      (quantity buy_price : Q) (st : store) :
  snd (add_holding w user_id symbol quantity buy_price st)
  = match sqlite_fault w MAddHolding with
    | Some _ => st
    | None =>
        record_purchase
          w st {| Purchase.user_id := user_id; Purchase.symbol := symbol;
                  Purchase.quantity := quantity;
                  Purchase.price := buy_price |}
    end.
Proof.
  unfold record_purchase, add_holding, connect, bind. cbn.
  now destruct (sqlite_fault w MAddHolding).
Qed.

(** Rows of another user pass through [INSERT OR REPLACE]. *)
Lemma insert_or_replace_other_user (r : HoldingRow.t)
      (rows : list HoldingRow.t) (user_id : string) :
  HoldingRow.user_id r <> user_id ->
  filter (fun x => String.eqb (HoldingRow.user_id x) user_id)
         (insert_or_replace r rows)
  = filter (fun x => String.eqb (HoldingRow.user_id x) user_id) rows.
Proof.
  intro Hne. unfold insert_or_replace. rewrite filter_app. cbn [filter].
  apply String.eqb_neq in Hne. rewrite Hne, app_nil_r.
  induction rows as [|x rows IH]; cbn; [reflexivity|].
  destruct (same_key (HoldingRow.user_id r) (HoldingRow.symbol r) x) eqn:K;
    cbn.
  - apply andb_true_iff in K. destruct K as [K _].
    apply String.eqb_eq in K.
    destruct (String.eqb (HoldingRow.user_id x) user_id) eqn:E;
      [|exact IH].
    apply String.eqb_eq in E. apply String.eqb_neq in Hne. congruence.
  - destruct (String.eqb (HoldingRow.user_id x) user_id);
      [now rewrite IH | exact IH].
Qed.

End StoreReads.

(** X4.  An alert that [add_alert] stored is read back by [get_alerts]:
    for its user the list grows by that alert, active, at the end (an
    alert on the same symbol is added, not replaced); for any other user
    the list is as before; holdings and transactions are not touched. *)
Theorem add_alert_then_get_alerts (w : world)
        (user_id symbol condition : string) (price : Q) (st : store)
        (reader : string) :
  sqlite_fault w MAddAlert = None ->
  sqlite_fault w MGetAlerts = None ->
  let st' :=
    snd (PortfolioDatabase.add_alert w user_id symbol condition price st) in
  exists l : list Alert.t,
    fst (PortfolioDatabase.get_alerts w reader st) = Ok l
    /\ fst (PortfolioDatabase.get_alerts w reader st')
       = Ok (l ++ if String.eqb user_id reader
                  then [ {| Alert.symbol := symbol;
                            Alert.condition := condition;
                            Alert.price := price;
                            Alert.active := true |} ]
                  else [])%list
    /\ holdings st' = holdings st
    /\ transactions st' = transactions st.
Proof.
  intros Ha Hg. cbv zeta.
  unfold PortfolioDatabase.add_alert, PortfolioDatabase.get_alerts,
    PortfolioDatabase.connect, bind.
  rewrite Ha, Hg. cbn [ret fst snd alerts holdings transactions].
  eexists. split; [reflexivity|]. split; [|split; reflexivity].
  f_equal. rewrite filter_app, map_app. f_equal.
  cbn [filter AlertRow.user_id AlertRow.active].
  rewrite andb_true_r.
  now destruct (String.eqb user_id reader).
Qed.

Lemma add_alert_twice_then_get_alerts :
  let st1 := snd (PortfolioDatabase.add_alert
                    Examples.market "u" "AAPL" "above" 200
                    PortfolioDatabase.init_database) in
  let st2 := snd (PortfolioDatabase.add_alert
                    Examples.market "u" "AAPL" "above" 200 st1) in
  fst (PortfolioDatabase.get_alerts Examples.market "u" st2)
  = Ok [ {| Alert.symbol := "AAPL"; Alert.condition := "above";
            Alert.price := 200; Alert.active := true |};
         {| Alert.symbol := "AAPL"; Alert.condition := "above";
            Alert.price := 200; Alert.active := true |} ].
Proof.
  cbv zeta.
  destruct (add_alert_then_get_alerts
              Examples.market "u" "AAPL" "above" 200
              (snd (PortfolioDatabase.add_alert
                      Examples.market "u" "AAPL" "above" 200
                      PortfolioDatabase.init_database))
              "u" eq_refl eq_refl) as [l [Hl [H _]]].
  rewrite H. vm_compute in Hl. injection Hl as <-. reflexivity.
Defined.

(** X5.  A holding that [add_holding] stored is read back by
    [get_portfolio]: the portfolio of its user then has exactly one entry
    for the symbol, with the quantity, the price and the date of this
    call. *)
Theorem add_holding_then_get_portfolio (w : world) (user_id symbol : string)
        (quantity buy_price : Q) (st : store) :
  sqlite_fault w MAddHolding = None ->
  sqlite_fault w MGetPortfolio = None ->
  let st' := snd (PortfolioDatabase.add_holding
                    w user_id symbol quantity buy_price st) in
  exists hs : list Holding.t,
    fst (PortfolioDatabase.get_portfolio w user_id st') = Ok hs
    /\ filter (fun h => String.eqb (Holding.symbol h) symbol) hs
       = [ {| Holding.symbol := symbol;
              Holding.quantity := quantity;
              Holding.buy_price := buy_price;
              Holding.buy_date := now w 0 |} ].
Proof.
  intros Ha Hg. cbv zeta. rewrite add_holding_store, Ha.
  destruct (record_purchase_store
              w st {| Purchase.user_id := user_id; Purchase.symbol := symbol;
                      Purchase.quantity := quantity;
                      Purchase.price := buy_price |} Ha)
    as [h [t [E [Hh _]]]].
  rewrite E. cbn [Purchase.user_id Purchase.symbol Purchase.quantity
                  Purchase.price] in Hh.
  unfold PortfolioDatabase.get_portfolio, PortfolioDatabase.connect, bind.
  rewrite Hg. cbn [ret fst].
  eexists. split; [reflexivity|].
  fold holding_of_row.
  rewrite (filter_of_map holding_of_row).
  unfold PortfolioDatabase.select_holdings. cbn [holdings].
  assert (P : Permutation
                (filter (fun x => String.eqb (Holding.symbol (holding_of_row x))
                                             symbol)
                        (PortfolioDatabase.index_order
                           (filter (fun r => String.eqb (HoldingRow.user_id r)
                                                        user_id)
                                   (PortfolioDatabase.insert_or_replace
                                      h (holdings st)))))
                [h]).
  { rewrite (filter_perm _ _ _ (index_order_perm _)).
    rewrite filter_twice.
    change (fun x => String.eqb (HoldingRow.user_id x) user_id
                     && String.eqb (Holding.symbol (holding_of_row x)) symbol)%bool
      with (PortfolioDatabase.same_key user_id symbol).
    rewrite insert_or_replace_lookup.
    replace (PortfolioDatabase.same_key user_id symbol h) with true;
      [reflexivity|].
    symmetry. apply same_key_spec.
    unfold holding_data in Hh. unfold holding_key. congruence. }
  apply Permutation_sym, Permutation_length_1_inv in P. rewrite P.
  cbn [map]. unfold holding_of_row, holding_data in *.
  injection Hh as _ -> -> -> ->. reflexivity.
Qed.

Lemma add_holding_then_get_portfolio_twice :
  let st1 := snd (PortfolioDatabase.add_holding
                    Examples.market "u" "AAPL" 10 150
                    PortfolioDatabase.init_database) in
  let st2 := snd (PortfolioDatabase.add_holding
                    Examples.market "u" "AAPL" 20 160 st1) in
  fst (PortfolioDatabase.get_portfolio Examples.market "u" st2)
  = Ok [ {| Holding.symbol := "AAPL"; Holding.quantity := 20;
            Holding.buy_price := 160;
            Holding.buy_date := "2024-01-01T10:00:00.000001" |} ].
Proof.
  cbv zeta.
  destruct (add_holding_then_get_portfolio
              Examples.market "u" "AAPL" 20 160
              (snd (PortfolioDatabase.add_holding
                      Examples.market "u" "AAPL" 10 150
                      PortfolioDatabase.init_database))
              eq_refl eq_refl) as [hs [Hhs _]].
  rewrite Hhs. vm_compute in Hhs. injection Hhs as <-. reflexivity.
Defined.

(** X6.  [add_holding] for one user changes nothing that another user
    reads: the portfolio of any other user and the alerts of every user
    are as before. *)
Theorem add_holding_leaves_other_users (w : world) (user_id symbol : string)
        (quantity buy_price : Q) (st : store) (other : string) :
  user_id <> other ->
  let st' := snd (PortfolioDatabase.add_holding
                    w user_id symbol quantity buy_price st) in
  fst (PortfolioDatabase.get_portfolio w other st')
  = fst (PortfolioDatabase.get_portfolio w other st)
  /\ (forall reader : string,
         fst (PortfolioDatabase.get_alerts w reader st')
         = fst (PortfolioDatabase.get_alerts w reader st)).
Proof.
  intro Hne. cbv zeta. rewrite add_holding_store.
  destruct (sqlite_fault w MAddHolding) as [e|] eqn:Ha;
    [split; reflexivity|].
  destruct (record_purchase_store
              w st {| Purchase.user_id := user_id; Purchase.symbol := symbol;
                      Purchase.quantity := quantity;
                      Purchase.price := buy_price |} Ha)
    as [h [t [E [Hh _]]]].
  rewrite E. split.
  - unfold PortfolioDatabase.get_portfolio, PortfolioDatabase.connect, bind.
    destruct (sqlite_fault w MGetPortfolio); [reflexivity|].
    cbn [ret fst]. unfold PortfolioDatabase.select_holdings. cbn [holdings].
    rewrite insert_or_replace_other_user; [reflexivity|].
    unfold holding_data in Hh. cbn in Hh. injection Hh as -> _ _ _ _.
    exact Hne.
  - intro reader.
    unfold PortfolioDatabase.get_alerts, PortfolioDatabase.connect, bind.
    now destruct (sqlite_fault w MGetAlerts).
Qed.

Lemma add_holding_leaves_other_users_example :
  fst (PortfolioDatabase.get_portfolio
         Examples.market "u"
         (snd (PortfolioDatabase.add_holding
                 Examples.market "v" "AAPL" 1 1 Examples.one_holding)))
  = fst (PortfolioDatabase.get_portfolio
           Examples.market "u" Examples.one_holding).
Proof.
  refine (proj1 (add_holding_leaves_other_users
                   Examples.market "v" "AAPL" 1 1 Examples.one_holding "u" _)).
  discriminate.
Defined.

(** ** What a chat message can write *)

Section ChatWrites.
Import Chat.

(** The four ways a dispatch ends: it raises and the store is as before;
    it answers and the store is as before; it stored an alert; it stored a
    holding. *)
Lemma dispatch_outcome (w : world) (user_input : UserInput.t)
      (intent : Intent.t) (st : store) :
  let user_id := UserInput.user_id user_input in
  let entities := Intent.entities intent in
  (exists e, dispatch w user_input intent st = (Raise e, st))
  \/ (exists r, dispatch w user_input intent st = (Ok r, st)
                /\ forall m, r <> RError m)
  \/ (Intent.action intent = "add_alert"
      /\ exists s syms p nums c m,
           Entities.symbols entities = Some (s :: syms)
           /\ Entities.numbers entities = Some (p :: nums)
           /\ Entities.condition entities = Some c
           /\ dispatch w user_input intent st
              = (Ok (RMessage m),
                 snd (PortfolioDatabase.add_alert w user_id s c p st)))
  \/ (Intent.action intent = "add_holding"
      /\ exists s syms q p nums m,
           Entities.symbols entities = Some (s :: syms)
           /\ Entities.numbers entities = Some (q :: p :: nums)
           /\ dispatch w user_input intent st
              = (Ok (RMessage m),
                 snd (PortfolioDatabase.add_holding w user_id s q p st))).
Proof.
  destruct intent as [action [syms nums cond] conf]. cbv zeta.
  unfold dispatch.
  cbn [Intent.action Intent.entities Entities.symbols Entities.numbers
       Entities.condition].
  destruct (String.eqb action "show_portfolio").
  { unfold bind.
    pose proof (calculate_portfolio_value_store
                  w (UserInput.user_id user_input) st) as H.
    destruct (AnalyticsEngine.calculate_portfolio_value _ _ _)
      as [[p|e] st']; cbn in H; subst st'; cbn.
    - right. left. eexists. split; [reflexivity|]. discriminate.
    - left. now exists e. }
  destruct (String.eqb action "add_alert") eqn:Ealert.
  { apply String.eqb_eq in Ealert.
    destruct syms as [[|s syms]|], nums as [[|p nums]|], cond as [c|]; cbn;
      try (left; eexists; reflexivity);
      try (right; left; eexists; split; [reflexivity|discriminate]).
    unfold bind.
    destruct (add_alert_outcome w (UserInput.user_id user_input) s c p st)
      as [[st' E]|[m E]].
    - right. right. left. split; [exact Ealert|].
      exists s, syms, p, nums, c. eexists.
      split; [reflexivity|]. split; [reflexivity|]. split; [reflexivity|].
      rewrite E. cbn. reflexivity.
    - left. rewrite E. cbn. eexists. reflexivity. }
  destruct (String.eqb action "compare_stocks").
  { destruct syms as [[|s [|s' syms]]|]; cbn;
      right; left; eexists; (split; [reflexivity|discriminate]). }
  destruct (String.eqb action "simulate").
  { destruct syms as [[|s syms]|], nums as [[|n nums]|]; cbn;
      try (left; eexists; reflexivity);
      try (right; left; eexists; split; [reflexivity|discriminate]).
    unfold bind.
    pose proof (simulate_purchase_store
                  w (UserInput.user_id user_input) s n st) as H.
    destruct (AnalyticsEngine.simulate_purchase _ _ _ _ _)
      as [[r|e] st']; cbn in H; subst st'; cbn.
    - right. left. eexists. split; [reflexivity|]. discriminate.
    - left. now exists e. }
  destruct (String.eqb action "add_holding") eqn:Eholding.
  { apply String.eqb_eq in Eholding.
    destruct syms as [[|s syms]|], nums as [[|q [|p nums]]|]; cbn;
      try (left; eexists; reflexivity);
      try (right; left; eexists; split; [reflexivity|discriminate]).
    unfold bind.
    destruct (add_holding_outcome w (UserInput.user_id user_input) s q p st)
      as [[st' E]|[m E]].
    - right. right. right. split; [exact Eholding|].
      exists s, syms, q, p, nums. eexists.
      split; [reflexivity|]. split; [reflexivity|].
      rewrite E. cbn. reflexivity.
    - left. rewrite E. cbn. eexists. reflexivity. }
  destruct (String.eqb action "stock_price").
  { destruct syms as [[|s syms]|]; cbn;
      try (left; eexists; reflexivity);
      right; left; eexists; (split; [reflexivity|discriminate]). }
  right. left. eexists. split; [reflexivity|]. discriminate.
Qed.

End ChatWrites.

(** X7.  What one chat message writes.  Either the store is left as it
    was; or the message was classified [add_alert] and the store is that
    after [add_alert] of the first symbol, the condition and the first
    number; or it was classified [add_holding] and the store is that
    after [add_holding] of the first symbol and the first two numbers.
    Nothing is ever deleted or written otherwise. *)
Theorem chat_endpoint_writes (w : world) (user_input : UserInput.t)
        (st : store) :
  let user_id := UserInput.user_id user_input in
  let intent := NLPProcessor.classify_intent (UserInput.message user_input) in
  let entities := Intent.entities intent in
  let st' := snd (Chat.chat_endpoint w user_input st) in
  st' = st
  \/ (Intent.action intent = "add_alert"
      /\ exists s syms p nums c,
           Entities.symbols entities = Some (s :: syms)
           /\ Entities.numbers entities = Some (p :: nums)
           /\ Entities.condition entities = Some c
           /\ st' = snd (PortfolioDatabase.add_alert w user_id s c p st))
  \/ (Intent.action intent = "add_holding"
      /\ exists s syms q p nums,
           Entities.symbols entities = Some (s :: syms)
           /\ Entities.numbers entities = Some (q :: p :: nums)
           /\ st' = snd (PortfolioDatabase.add_holding w user_id s q p st)).
Proof.
  cbv zeta. rewrite chat_endpoint_unfold. cbv zeta. cbn [snd].
  destruct (dispatch_outcome
              w user_input
              (NLPProcessor.classify_intent (UserInput.message user_input)) st)
    as [[e E]|[[r [E _]]|[[Ha [s [syms [p [nums [c [m [Hs [Hn [Hc E]]]]]]]]]]
                         |[Ha [s [syms [q [p [nums [m [Hs [Hn E]]]]]]]]]]]];
    rewrite E; cbn [snd].
  - now left.
  - now left.
  - right. left. split; [exact Ha|]. now exists s, syms, p, nums, c.
  - right. right. split; [exact Ha|]. now exists s, syms, q, p, nums.
Qed.

(** X8.  A chat message answered with the error object of the [except]
    clause wrote nothing: the store is as it was. *)
Theorem chat_endpoint_error_writes_nothing (w : world)
        (user_input : UserInput.t) (st : store) (m : string) :
  Envelope.response (fst (Chat.chat_endpoint w user_input st)) = RError m ->
  snd (Chat.chat_endpoint w user_input st) = st.
Proof.
  rewrite chat_endpoint_unfold. cbv zeta. cbn [fst snd Envelope.response].
  destruct (dispatch_outcome
              w user_input
              (NLPProcessor.classify_intent (UserInput.message user_input)) st)
    as [[e E]|[[r [E _]]|[[_ [s [syms [p [nums [c [m' [_ [_ [_ E]]]]]]]]]]
                         |[_ [s [syms [q [p [nums [m' [_ [_ E]]]]]]]]]]]];
    rewrite E; cbn [fst snd]; try reflexivity; discriminate.
Qed.

Lemma chat_endpoint_error_writes_nothing_locked :
  snd (Chat.chat_endpoint Examples.locked
                          (Examples.says "I bought 10 AAPL at 100")
                          Examples.one_holding)
  = Examples.one_holding.
Proof.
  apply (chat_endpoint_error_writes_nothing
           Examples.locked (Examples.says "I bought 10 AAPL at 100")
           Examples.one_holding "An error occurred: database is locked").
  vm_compute. reflexivity.
Defined.

(** X9.  A message classified [stock_price] or [compare_stocks] is never
    answered with the error object and writes nothing: these branches
    call the gateway only, and a failed lookup comes back inside the
    answer. *)
Theorem chat_endpoint_lookups_never_fail (w : world)
        (user_input : UserInput.t) (st : store) :
  let intent := NLPProcessor.classify_intent (UserInput.message user_input) in
  Intent.action intent = "stock_price"
  \/ Intent.action intent = "compare_stocks" ->
  (forall m, Envelope.response (fst (Chat.chat_endpoint w user_input st))
             <> RError m)
  /\ snd (Chat.chat_endpoint w user_input st) = st.
Proof.
  cbv zeta. intro Ha.
  rewrite chat_endpoint_unfold. cbv zeta. cbn [fst snd Envelope.response].
  pose proof (extract_entities_has_first (UserInput.message user_input))
    as [Hs _].
  rewrite <- classify_intent_entities in Hs.
  destruct (NLPProcessor.classify_intent (UserInput.message user_input))
    as [action [syms nums cond] conf].
  cbn [Intent.action Intent.entities Entities.symbols] in Ha, Hs.
  unfold Chat.dispatch.
  cbn [Intent.action Intent.entities Entities.symbols Entities.numbers
       Entities.condition].
  destruct Ha as [-> | ->]; cbn [String.eqb Ascii.eqb Bool.eqb].
  - destruct syms as [[|s syms]|]; [now apply no_first_of_nil in Hs| |];
      cbn; split; (discriminate || reflexivity).
  - destruct syms as [[|s [|s' syms]]|]; cbn;
      split; (discriminate || reflexivity).
Qed.

Lemma chat_endpoint_lookups_never_fail_xyz :
  Envelope.response
    (fst (Chat.chat_endpoint Examples.locked (Examples.says "xyz")
                             Examples.one_holding))
  <> RError "An error occurred: database is locked".
Proof.
  refine (proj1 (chat_endpoint_lookups_never_fail
                   Examples.locked (Examples.says "xyz")
                   Examples.one_holding _) _).
  left. vm_compute. reflexivity.
Defined.

(** ** The analytics engine at its edges *)

Section AnalyticsEdges.
Import AnalyticsEngine.

(** A holding whose lookup fails changes nothing. *)
Lemma loop_body_error (w : world) (a : acc) (h : Holding.t) (e : string) :
  MarketDataAPI.get_stock_info w (Holding.symbol h) = StockError e ->
  loop_body w a h = a.
Proof. intro H. unfold loop_body. now rewrite H. Qed.

(** When every lookup fails the loop ends as it started. *)
Lemma loop_all_errors (w : world) (hs : list Holding.t) :
  (forall h, In h hs ->
             has_error (MarketDataAPI.get_stock_info w (Holding.symbol h))
             = true) ->
  forall a : acc, fold_left (loop_body w) hs a = a.
Proof.
  induction hs as [|h hs IH]; intros H a; [reflexivity|].
  cbn [fold_left].
  pose proof (H h (or_introl eq_refl)) as Hh.
  destruct (MarketDataAPI.get_stock_info w (Holding.symbol h)) as [e|q] eqn:E;
    [|discriminate].
  rewrite (loop_body_error w a h e E).
  apply IH. intros h' Hin. apply H. now right.
Qed.

End AnalyticsEdges.

(** X10.  The two edges of [calculate_portfolio_value].  A user with no
    holding gets the message "No holdings found in portfolio", and no
    other user does: whoever has a holding gets a report.  When all the
    holdings fail their lookup, the report has zero totals and an empty
    detail list. *)
Theorem calculate_portfolio_value_edges (w : world) (user_id : string)
        (st : store) (hs : list Holding.t) :
  fst (PortfolioDatabase.get_portfolio w user_id st) = Ok hs ->
  (hs = [] ->
   AnalyticsEngine.calculate_portfolio_value w user_id st
   = (Ok (NoHoldings "No holdings found in portfolio"), st))
  /\ (hs <> [] ->
      exists r : Report.t,
        AnalyticsEngine.calculate_portfolio_value w user_id st
        = (Ok (Valuation r), st))
  /\ (hs <> [] ->
      (forall h, In h hs ->
                 has_error (MarketDataAPI.get_stock_info w (Holding.symbol h))
                 = true) ->
      AnalyticsEngine.calculate_portfolio_value w user_id st
      = (Ok (Valuation {| Report.total_value := 0;
                          Report.total_cost := 0;
                          Report.total_profit_loss := 0;
                          Report.total_profit_loss_pct := 0;
                          Report.holdings := [] |}), st)).
Proof.
  intro H.
  unfold AnalyticsEngine.calculate_portfolio_value, bind.
  pose proof (get_portfolio_store w user_id st) as Hs.
  destruct (PortfolioDatabase.get_portfolio w user_id st) as [r st'].
  cbn [fst snd] in H, Hs. subst r st'.
  split; [now intros ->|]. split.
  - intro Hne. destruct hs as [|h hs]; [congruence|].
    eexists. reflexivity.
  - intros Hne Hall. destruct hs as [|h hs]; [congruence|].
    unfold ret. rewrite (loop_all_errors w (h :: hs) Hall).
    reflexivity.
Qed.

Lemma calculate_portfolio_value_edges_closed_market :
  AnalyticsEngine.calculate_portfolio_value
    closed_market "u" Examples.one_holding
  = (Ok (Valuation {| Report.total_value := 0;
                      Report.total_cost := 0;
                      Report.total_profit_loss := 0;
                      Report.total_profit_loss_pct := 0;
                      Report.holdings := [] |}), Examples.one_holding).
Proof.
  assert (H : exists hs,
             fst (PortfolioDatabase.get_portfolio
                    closed_market "u" Examples.one_holding) = Ok hs
             /\ hs <> []
             /\ forall h, In h hs ->
                  has_error (MarketDataAPI.get_stock_info
                               closed_market (Holding.symbol h)) = true).
  { eexists. split; [vm_compute; reflexivity|]. split; [discriminate|].
    intros h Hin. reflexivity. }
  destruct H as [hs [Hhs [Hne Hall]]].
  exact (proj2 (proj2 (calculate_portfolio_value_edges
                         closed_market "u" Examples.one_holding hs Hhs))
               Hne Hall).
Defined.

(** ** Comparison, history and the other endpoints *)

Section Comparison.
Local Open Scope list_scope.

Lemma dict_set_in {V} (d : list (string * V)) (key : string) (v : V)
      (k : string) (x : V) :
  In (k, x) (dict_set d key v) -> (k, x) = (key, v) \/ In (k, x) d.
Proof.
  induction d as [|[k0 x0] d IH]; cbn.
  - intros [H|[]]. left. now symmetry.
  - destruct (String.eqb k0 key) eqn:E; cbn.
    + apply String.eqb_eq in E. subst k0.
      intros [H|H]; [left; now symmetry | right; now right].
    + intros [H|H]; [right; now left|].
      destruct (IH H); [now left | right; now right].
Qed.

Lemma dict_set_has {V} (d : list (string * V)) (key : string) (v : V) :
  In (key, v) (dict_set d key v).
Proof.
  induction d as [|[k0 x0] d IH]; cbn; [now left|].
  destruct (String.eqb k0 key) eqn:E; cbn.
  - apply String.eqb_eq in E. subst k0. now left.
  - now right.
Qed.

Lemma dict_set_keeps {V} (d : list (string * V)) (key : string) (v : V)
      (k : string) (x : V) :
  k <> key -> In (k, x) d -> In (k, x) (dict_set d key v).
Proof.
  intro Hne. induction d as [|[k0 x0] d IH]; cbn; [tauto|].
  destruct (String.eqb k0 key) eqn:E; cbn.
  - apply String.eqb_eq in E. subst k0.
    intros [H|H]; [injection H as -> _; congruence | now right].
  - intros [H|H]; [now left | right; now apply IH].
Qed.

Lemma dict_set_keys {V} (d : list (string * V)) (key : string) (v : V) :
  NoDup (map fst d) -> NoDup (map fst (dict_set d key v)).
Proof.
  induction d as [|[k0 x0] d IH]; cbn; intro H.
  - constructor; [intros []|constructor].
  - apply NoDup_cons_iff in H. destruct H as [Hk Hd].
    destruct (String.eqb k0 key) eqn:E; cbn.
    + now constructor.
    + constructor; [|now apply IH].
      intro Hin. apply in_map_iff in Hin.
      destruct Hin as [[k x] [Hfst Hin]]. cbn in Hfst. subst k.
      apply dict_set_in in Hin. destruct Hin as [Hin|Hin].
      * injection Hin as -> _. rewrite String.eqb_refl in E. discriminate.
      * apply Hk. apply in_map_iff. now exists (k0, x).
Qed.

(** The loop of [compare_stocks], from any dict it may have reached. *)
Lemma compare_stocks_loop (w : world) (symbols seen : list string)
      (c : list (string * stock_info)) :
  NoDup (map fst c) ->
  (forall k v, In (k, v) c <->
               In k seen /\ v = MarketDataAPI.get_stock_info w k
               /\ has_error v = false) ->
  let c' :=
    fold_left
      (fun comparison symbol =>
         let stock_info := MarketDataAPI.get_stock_info w symbol in
         if has_error stock_info then comparison
         else dict_set comparison symbol stock_info)
      symbols c in
  NoDup (map fst c')
  /\ (forall k v, In (k, v) c' <->
                  In k (seen ++ symbols)
                  /\ v = MarketDataAPI.get_stock_info w k
                  /\ has_error v = false).
Proof.
  revert seen c. induction symbols as [|s symbols IH]; intros seen c Hn Hc.
  - cbn. rewrite app_nil_r. now split.
  - cbn [fold_left]. cbv zeta.
    replace (seen ++ s :: symbols) with ((seen ++ [s]) ++ symbols)
      by now rewrite <- app_assoc.
    destruct (has_error (MarketDataAPI.get_stock_info w s)) eqn:E.
    + apply IH; [exact Hn|].
      intros k v. rewrite Hc, in_app_iff. cbn [In]. split.
      * tauto.
      * intros [[Hk|[<-|[]]] [Hv He]]; [tauto|]. subst v. congruence.
    + apply IH; [now apply dict_set_keys|].
      intros k v. rewrite in_app_iff. cbn [In]. split.
      * intro Hin. apply dict_set_in in Hin. destruct Hin as [Hin|Hin].
        -- injection Hin as -> ->. tauto.
        -- apply Hc in Hin. tauto.
      * intros [[Hk|[<-|[]]] [Hv He]].
        -- destruct (String.eqb_spec k s) as [->|Hne].
           ++ subst v. apply dict_set_has.
           ++ apply dict_set_keeps; [exact Hne|]. apply Hc. tauto.
        -- subst v. apply dict_set_has.
Qed.

End Comparison.

(** X12.  The comparison holds one entry per distinct symbol whose lookup
    succeeded, and nothing else: its keys are distinct, every key is one
    of the symbols given, its value is the quote of that key, and every
    symbol given whose lookup succeeds is a key. *)
Theorem compare_stocks_entries (w : world) (symbols : list string) :
  let comparison := AnalyticsEngine.compare_stocks w symbols in
  NoDup (map fst comparison)
  /\ (forall (k : string) (v : stock_info),
         In (k, v) comparison <->
         In k symbols /\ v = MarketDataAPI.get_stock_info w k
         /\ has_error v = false).
Proof.
  cbv zeta. unfold AnalyticsEngine.compare_stocks.
  apply (compare_stocks_loop w symbols [] []).
  - constructor.
  - intros k v. cbn. tauto.
Qed.

(** X13.  [get_historical_data] returns at most ten records, and they are
    the last ones of the history in their order: the whole history when it
    has ten rows or fewer.  When yfinance raises, it returns the error
    object with the text of the exception. *)
Theorem get_historical_data_last_ten {R : Type}
        (history : string -> string -> HistoricalData.history_outcome R)
        (symbol period : string) :
  match history symbol period with
  | HistoricalData.HistoryRaise e =>
      HistoricalData.get_historical_data history symbol period
      = HistoricalData.HistoricalError
          ("Error fetching historical data: " ++ e)
  | HistoricalData.HistoryFrame records =>
      exists data : list R,
        HistoricalData.get_historical_data history symbol period
        = HistoricalData.Historical symbol period data
        /\ (List.length data <= 10)%nat
        /\ List.length data = Nat.min 10 (List.length records)
        /\ (exists older : list R, records = (older ++ data)%list)
        /\ ((List.length records <= 10)%nat -> data = records)
  end.
Proof.
  unfold HistoricalData.get_historical_data.
  destruct (history symbol period) as [e|records]; [reflexivity|].
  eexists. split; [reflexivity|].
  unfold HistoricalData.last_records.
  assert (L : List.length (skipn (List.length records - 10) records)
              = Nat.min 10 (List.length records)).
  { rewrite length_skipn. lia. }
  split; [lia|]. split; [exact L|]. split.
  - exists (firstn (List.length records - 10) records).
    symmetry. apply firstn_skipn.
  - intro H. now replace (List.length records - 10)%nat with 0%nat by lia.
Qed.

Lemma get_alerts_store (w : world) (user_id : string) (st : store) :
  snd (PortfolioDatabase.get_alerts w user_id st) = st.
Proof.
  unfold PortfolioDatabase.get_alerts, PortfolioDatabase.connect, bind.
  now destruct (sqlite_fault w MGetAlerts).
Qed.

(** X14.  The two GET endpoints over the store have no [try]: a fault of
    the database reaches the caller as an exception, where the chat
    endpoint would answer with an error object; and they write nothing. *)
Theorem get_endpoints_raise (w : world) (user_id : string) (st : store) :
  snd (Endpoints.get_portfolio w user_id st) = st
  /\ snd (Endpoints.get_alerts w user_id st) = st
  /\ (forall m, sqlite_fault w MGetPortfolio = Some m ->
                fst (Endpoints.get_portfolio w user_id st)
                = Raise (DatabaseError m))
  /\ (forall m, sqlite_fault w MGetAlerts = Some m ->
                fst (Endpoints.get_alerts w user_id st)
                = Raise (DatabaseError m))
  /\ (sqlite_fault w MGetAlerts = None ->
      exists l, fst (Endpoints.get_alerts w user_id st) = Ok l
                /\ Forall (fun a => Alert.active a = true) l).
Proof.
  split; [apply calculate_portfolio_value_store|].
  split.
  { unfold Endpoints.get_alerts, bind.
    pose proof (get_alerts_store w user_id st) as H.
    destruct (PortfolioDatabase.get_alerts w user_id st) as [[l|e] st'];
      cbn in *; now subst. }
  split; [|split].
  - intros m H.
    unfold Endpoints.get_portfolio, AnalyticsEngine.calculate_portfolio_value,
      PortfolioDatabase.get_portfolio, PortfolioDatabase.connect, bind.
    now rewrite H.
  - intros m H.
    unfold Endpoints.get_alerts, PortfolioDatabase.get_alerts,
      PortfolioDatabase.connect, bind.
    now rewrite H.
  - intro H.
    unfold Endpoints.get_alerts, PortfolioDatabase.get_alerts,
      PortfolioDatabase.connect, bind.
    rewrite H. cbn. eexists. split; [reflexivity|].
    apply Forall_forall. intros a Ha.
    apply in_map_iff in Ha. destruct Ha as [row [<- Hrow]].
    apply filter_In in Hrow. destruct Hrow as [_ Hrow].
    apply andb_true_iff in Hrow. now destruct Hrow.
Qed.

Lemma get_endpoints_raise_locked :
  fst (Endpoints.get_portfolio Examples.locked "u" Examples.one_holding)
  = Raise (DatabaseError "database is locked")
  /\ Envelope.response
       (fst (Chat.chat_endpoint Examples.locked
                                (Examples.says "show my portfolio")
                                Examples.one_holding))
     = RError "An error occurred: database is locked".
Proof.
  split.
  - destruct (get_endpoints_raise Examples.locked "u" Examples.one_holding)
      as [_ [_ [H _]]].
    now apply H.
  - vm_compute. reflexivity.
Defined.

(** X15.  Whatever the message and whatever the market answers,
    [recommend_portfolio] returns one entry per ticker it chose (two or
    three), a failed lookup included, and the allocations add up to 1;
    "low" is looked for before "high". *)
Theorem recommend_portfolio_allocations (w : world) (input : UserInput.t) :
  let tickers := fst (Endpoints.allocation_of (UserInput.message input)) in
  let portfolio := Endpoints.recommend_portfolio w input in
  map fst portfolio = map (MarketDataAPI.get_stock_info w) tickers
  /\ (List.length portfolio = 2 \/ List.length portfolio = 3)%nat
  /\ (ValuationSpec.sum (map snd portfolio) == 1)%Q
  /\ (Text.contains "low" (Text.lower (UserInput.message input)) = true ->
      tickers = ["AAPL"; "JNJ"]).
Proof.
  cbv zeta. unfold Endpoints.recommend_portfolio, Endpoints.allocation_of.
  destruct (Text.contains "low" (Text.lower (UserInput.message input)));
    [|destruct (Text.contains "high" (Text.lower (UserInput.message input)))];
    cbn; repeat split; auto; discriminate.
Qed.
